(** * The MCP core of ShftFdn: ModelContext, ContextRegistry, ModelManager

    A shallow embedding of [src/python/mcp/model_context.py],
    [src/python/ai/model_manager.py] and [src/python/ai/language_model.py],
    and the properties of the lifecycle state machine, of the two
    registries and of the dictionary round trip.

    Conventions of the embedding:
    - a Python [str] is a [string]; a Python [float] is a primitive [float];
    - a value of type [Any] is a [PyVal.t];
    - a Python [dict] is an insertion-ordered association list ([PyDict]);
    - model objects and their [ModelInfo] objects are shared and mutable:
      they live in a store ([World]) and are named by references ([loc]);
    - code that raises returns a [Result]; code that also touches the store
      runs in the monad [M]. *)

From Stdlib Require Import ZArith Floats Lia.
From stdpp Require Import base option strings functions list.

Local Open Scope string_scope.
Local Open Scope list_scope.

(** ** Exceptions and results *)

(** The classes of exception the embedded code meets.  [KeyboardInterrupt]
    and [SystemExit] derive from [BaseException] only, every other class
    derives from [Exception]. *)
Inductive ExcClass : Type :=
  | ValueError
  | TypeError
  | KeyError
  | IndexError
  | AttributeError
  | RuntimeError
  | OtherException (cls : string)
  | KeyboardInterrupt
  | SystemExit.

(** An exception object: its class and what [str(e)] returns. *)
Record PyExc : Type := mkExc { exc_class : ExcClass; exc_str : string }.

(** [isinstance(e, Exception)]: what [except Exception] catches. *)
Definition is_Exception (e : PyExc) : bool :=
  match exc_class e with
  | KeyboardInterrupt | SystemExit => false
  | _ => true
  end.

Inductive Result (A : Type) : Type :=
  | Ret (a : A)
  | Raise (e : PyExc).
Arguments Ret {A} a.
Arguments Raise {A} e.

Definition rbind {A B} (r : Result A) (k : A -> Result B) : Result B :=
  match r with
  | Ret a => k a
  | Raise e => Raise e
  end.

Fixpoint rmapM {A B} (f : A -> Result B) (l : list A) : Result (list B) :=
  match l with
  | [] => Ret []
  | x :: l' => rbind (f x) (fun y => rbind (rmapM f l') (fun ys => Ret (y :: ys)))
  end.

(** ** Insertion-ordered dictionaries with [str] keys *)

Module PyDict.

Definition t (V : Type) : Type := list (string * V).

Definition empty {V} : t V := [].

(** [d.get(k)] *)
Fixpoint get {V} (k : string) (d : t V) : option V :=
  match d with
  | [] => None
  | (k', v) :: d' => if String.eqb k k' then Some v else get k d'
  end.

(** [k in d] *)
Definition contains {V} (k : string) (d : t V) : bool :=
  match get k d with Some _ => true | None => false end.

(** [d[k] = v]: an existing key keeps its position, a new key goes last. *)
Fixpoint set {V} (k : string) (v : V) (d : t V) : t V :=
  match d with
  | [] => [(k, v)]
  | (k', v') :: d' =>
      if String.eqb k k' then (k', v) :: d' else (k', v') :: set k v d'
  end.

(** [del d[k]] *)
Fixpoint del {V} (k : string) (d : t V) : t V :=
  match d with
  | [] => []
  | (k', v') :: d' => if String.eqb k k' then d' else (k', v') :: del k d'
  end.

(** [list(d.values())] *)
Definition values {V} (d : t V) : list V := snd <$> d.

Definition keys {V} (d : t V) : list string := fst <$> d.

(** The invariant of a Python dict: no key occurs twice. *)
Definition wf {V} (d : t V) : Prop := NoDup (keys d).

End PyDict.

(** ** Python values (the type [Any]) *)

Module NdArray.

(** A cell of a numeric array. *)
Inductive scalar : Type :=
  | SInt (z : Z)
  | SFloat (f : float).

(** A numeric numpy array: its shape and its cells in row-major order of
    their indices. *)
Record t : Type := mk { shape : list nat; buffer : list scalar }.

Definition size_of (shp : list nat) : nat := foldr Nat.mul 1 shp.

Definition wf (a : t) : Prop := length (buffer a) = size_of (shape a).

(** Row-major offset of an index, [None] when a coordinate is out of
    range or the number of coordinates differs from the dimension. *)
Fixpoint offset (shp : list nat) (idx : list nat) : option nat :=
  match shp, idx with
  | [], [] => Some 0
  | n :: shp', i :: idx' =>
      if decide (i < n) then
        match offset shp' idx' with
        | Some o => Some (i * size_of shp' + o)
        | None => None
        end
      else None
  | _, _ => None
  end.

(** [a[i1, ..., ik]] *)
Definition item (a : t) (idx : list nat) : option scalar :=
  match offset (shape a) idx with
  | Some o => buffer a !! o
  | None => None
  end.

End NdArray.

Module PyVal.

#[warnings="-register-all"]
Inductive t : Type :=
  | VNone
  | VBool (b : bool)
  | VInt (z : Z)
  | VFloat (f : float)
  | VStr (s : string)
  | VList (xs : list t)
  | VDict (kvs : list (string * t))
  | VNdarray (a : NdArray.t).

(** [isinstance(v, np.ndarray)] *)
Definition is_ndarray (v : t) : bool :=
  match v with VNdarray _ => true | _ => false end.

(** [bool(v)].  An array is as true as its one cell; numpy refuses an
    array of several cells (and, since 2.2, one of none). *)
Definition truthy (v : t) : Result bool :=
  match v with
  | VNone => Ret false
  | VBool b => Ret b
  | VInt z => Ret (negb (Z.eqb z 0))
  | VFloat f => Ret (negb (PrimFloat.eqb f 0%float))
  | VStr s => Ret (negb (String.eqb s ""))
  | VList xs => Ret (match xs with [] => false | _ => true end)
  | VDict kvs => Ret (match kvs with [] => false | _ => true end)
  | VNdarray a =>
      match NdArray.buffer a with
      | [NdArray.SInt z] => Ret (negb (Z.eqb z 0))
      | [NdArray.SFloat f] => Ret (negb (PrimFloat.eqb f 0%float))
      | _ => Raise (mkExc ValueError "The truth value of an array is ambiguous")
      end
  end.

(** Nested indexing [v[i1][i2]...[ik]] into lists. *)
Fixpoint index (v : t) (idx : list nat) : option t :=
  match idx with
  | [] => Some v
  | i :: idx' =>
      match v with
      | VList xs =>
          match xs !! i with
          | Some x => index x idx'
          | None => None
          end
      | _ => None
      end
  end.

End PyVal.
Export PyVal (VNone, VBool, VInt, VFloat, VStr, VList, VDict, VNdarray).

(** [a.tolist()]: the cells as nested lists, one level per dimension; an
    array of dimension 0 gives its one cell as a plain number. *)
Module Tolist.

Definition scalar_item (x : NdArray.scalar) : PyVal.t :=
  match x with
  | NdArray.SInt z => VInt z
  | NdArray.SFloat f => VFloat f
  end.

(** The [n] consecutive rows of [k] cells each at the head of [buf]. *)
Fixpoint rows {A} (n k : nat) (buf : list A) : list (list A) :=
  match n with
  | O => []
  | S n' => take k buf :: rows n' k (drop k buf)
  end.

Fixpoint nest (shp : list nat) (buf : list NdArray.scalar) : PyVal.t :=
  match shp with
  | [] =>
      match buf with
      | x :: _ => scalar_item x
      | [] => VNone
      end
  | n :: shp' => VList (nest shp' <$> rows n (NdArray.size_of shp') buf)
  end.

Definition tolist (a : NdArray.t) : PyVal.t :=
  nest (NdArray.shape a) (NdArray.buffer a).

End Tolist.

(** ** [mcp/model_context.py] *)

Module ModelType.

Inductive t : Type :=
  | LANGUAGE
  | VISION
  | MULTIMODAL
  | AUDIO
  | REINFORCEMENT_LEARNING
  | CUSTOM.

#[global] Instance eq_dec : EqDecision t.
Proof. solve_decision. Defined.

Definition value (m : t) : string :=
  match m with
  | LANGUAGE => "language"
  | VISION => "vision"
  | MULTIMODAL => "multimodal"
  | AUDIO => "audio"
  | REINFORCEMENT_LEARNING => "reinforcement_learning"
  | CUSTOM => "custom"
  end.

Definition members : list t :=
  [LANGUAGE; VISION; MULTIMODAL; AUDIO; REINFORCEMENT_LEARNING; CUSTOM].

(** [ModelType(v)]: the member whose value is [v], else [ValueError]. *)
Definition of_value (v : PyVal.t) : Result t :=
  match v with
  | VStr s =>
      match List.find (fun m => String.eqb (value m) s) members with
      | Some m => Ret m
      | None => Raise (mkExc ValueError ("'" +:+ s +:+ "' is not a valid ModelType"))
      end
  | _ => Raise (mkExc ValueError "not a valid ModelType")
  end.

End ModelType.

Module ContextType.

Inductive t : Type :=
  | TEXT
  | IMAGE
  | AUDIO
  | NUMERIC
  | CATEGORICAL
  | VECTOR
  | MIXED.

#[global] Instance eq_dec : EqDecision t.
Proof. solve_decision. Defined.

Definition value (c : t) : string :=
  match c with
  | TEXT => "text"
  | IMAGE => "image"
  | AUDIO => "audio"
  | NUMERIC => "numeric"
  | CATEGORICAL => "categorical"
  | VECTOR => "vector"
  | MIXED => "mixed"
  end.

Definition members : list t :=
  [TEXT; IMAGE; AUDIO; NUMERIC; CATEGORICAL; VECTOR; MIXED].

(** [ContextType(v)] *)
Definition of_value (v : PyVal.t) : Result t :=
  match v with
  | VStr s =>
      match List.find (fun c => String.eqb (value c) s) members with
      | Some c => Ret c
      | None => Raise (mkExc ValueError ("'" +:+ s +:+ "' is not a valid ContextType"))
      end
  | _ => Raise (mkExc ValueError "not a valid ContextType")
  end.

End ContextType.

(** Reading a dictionary the way the deserialisers do. *)
Module DictAccess.

(** [data[k]] *)
Definition getitem (data : PyDict.t PyVal.t) (k : string) : Result PyVal.t :=
  match PyDict.get k data with
  | Some v => Ret v
  | None => Raise (mkExc KeyError ("'" +:+ k +:+ "'"))
  end.

(** [data.get(k, default)] *)
Definition get_default (data : PyDict.t PyVal.t) (k : string) (default : PyVal.t)
  : PyVal.t :=
  match PyDict.get k data with
  | Some v => v
  | None => default
  end.

(** The dataclasses are not checked at run time; the records of this
    file are typed after their annotations.  A value read from a
    dictionary is therefore taken at its annotated type, and one that
    does not have it is an [ill_typed] result: Python would build an
    object that breaks its annotation, which no record here denotes. *)
Definition ill_typed {A} (field : string) : Result A :=
  Raise (mkExc TypeError ("field " +:+ field +:+ " does not have its annotated type")).

Definition as_str (field : string) (v : PyVal.t) : Result string :=
  match v with VStr s => Ret s | _ => ill_typed field end.

Definition as_float (field : string) (v : PyVal.t) : Result float :=
  match v with VFloat f => Ret f | _ => ill_typed field end.

Definition as_int (field : string) (v : PyVal.t) : Result Z :=
  match v with VInt z => Ret z | _ => ill_typed field end.

Definition as_list {A} (elem : string -> PyVal.t -> Result A) (field : string)
  (v : PyVal.t) : Result (list A) :=
  match v with VList xs => rmapM (elem field) xs | _ => ill_typed field end.

Definition as_optional {A} (elem : string -> PyVal.t -> Result A) (field : string)
  (v : PyVal.t) : Result (option A) :=
  match v with
  | VNone => Ret None
  | _ => rbind (elem field v) (fun x => Ret (Some x))
  end.

(** A nested dictionary; subscripting anything else raises [TypeError]. *)
Definition as_dict (v : PyVal.t) : Result (PyDict.t PyVal.t) :=
  match v with
  | VDict kvs => Ret kvs
  | _ => Raise (mkExc TypeError "object is not subscriptable with a str key")
  end.

Definition of_optional {A} (inj : A -> PyVal.t) (o : option A) : PyVal.t :=
  match o with Some x => inj x | None => VNone end.

End DictAccess.

Module ContextMetadata.
Import DictAccess.

Record t : Type := mk {
  creation_time : float;
  source : string;
  version : string;
  dimensions : option (list Z);
  content_type : option string;
  tags : list string
}.

Definition to_dict (self : t) : PyDict.t PyVal.t :=
  [ ("creation_time", VFloat (creation_time self));
    ("source", VStr (source self));
    ("version", VStr (version self));
    ("dimensions", of_optional (fun l => VList (VInt <$> l)) (dimensions self));
    ("content_type", of_optional VStr (content_type self));
    ("tags", VList (VStr <$> tags self)) ].

(** The lookups in the order of the source, then the typing of what was
    found. *)
Definition from_dict (data : PyDict.t PyVal.t) : Result t :=
  rbind (getitem data "creation_time") (fun creation_time =>
  rbind (getitem data "source") (fun source =>
  rbind (getitem data "version") (fun version =>
  let dimensions := get_default data "dimensions" VNone in
  let content_type := get_default data "content_type" VNone in
  let tags := get_default data "tags" (VList []) in
  rbind (as_float "creation_time" creation_time) (fun creation_time =>
  rbind (as_str "source" source) (fun source =>
  rbind (as_str "version" version) (fun version =>
  rbind (as_optional (as_list as_int) "dimensions" dimensions) (fun dimensions =>
  rbind (as_optional as_str "content_type" content_type) (fun content_type =>
  rbind (as_list as_str "tags" tags) (fun tags =>
  Ret (mk creation_time source version dimensions content_type tags)))))))))).

End ContextMetadata.

Module ModelContext.
Import DictAccess.

Record t : Type := mk {
  context_id : string;
  context_type : ContextType.t;
  data : PyVal.t;
  metadata : ContextMetadata.t;
  model_type : option ModelType.t
}.

(** The local [data_serialized] of [to_dict]. *)
Definition data_serialized (self : t) : PyVal.t :=
  match data self with
  | VNdarray a => Tolist.tolist a
  | v => v
  end.

Definition to_dict (self : t) : PyDict.t PyVal.t :=
  [ ("context_id", VStr (context_id self));
    ("context_type", VStr (ContextType.value (context_type self)));
    ("data", data_serialized self);
    ("metadata", VDict (ContextMetadata.to_dict (metadata self)));
    ("model_type",
      match model_type self with
      | Some m => VStr (ModelType.value m)
      | None => VNone
      end) ].

Definition from_dict (data : PyDict.t PyVal.t) : Result t :=
  rbind (rbind (getitem data "context_type") ContextType.of_value) (fun context_type =>
  rbind (rbind (PyVal.truthy (get_default data "model_type" VNone)) (fun given =>
           if given : bool then
             rbind (rbind (getitem data "model_type") ModelType.of_value)
                   (fun m => Ret (Some m))
           else Ret None)) (fun model_type =>
  rbind (rbind (rbind (getitem data "metadata") as_dict) ContextMetadata.from_dict) (fun metadata =>
  rbind (getitem data "context_id") (fun context_id =>
  rbind (getitem data "data") (fun payload =>
  rbind (as_str "context_id" context_id) (fun context_id =>
  Ret (mk context_id context_type payload metadata model_type))))))).

End ModelContext.

(** [ContextRegistry.register] and the manager log through the module's
    [logger]; the records it is handed are part of the store. *)
Module Logging.

Inductive Level : Type :=
  | DEBUG
  | INFO
  | WARNING
  | ERROR
  | CRITICAL.

#[global] Instance level_eq_dec : EqDecision Level.
Proof. solve_decision. Defined.

(** [exc_info] is the exception [logger.exception] attaches. *)
Record LogRecord : Type := mkLogRecord {
  level : Level;
  msg : string;
  exc_info : option PyExc
}.

End Logging.

(** ** [ai/model_manager.py]: status and info *)

Module ModelStatus.

Inductive t : Type :=
  | INITIALIZING
  | READY
  | RUNNING
  | ERROR
  | STOPPED.

#[global] Instance eq_dec : EqDecision t.
Proof. solve_decision. Defined.

Definition value (s : t) : string :=
  match s with
  | INITIALIZING => "initializing"
  | READY => "ready"
  | RUNNING => "running"
  | ERROR => "error"
  | STOPPED => "stopped"
  end.

End ModelStatus.

Module ModelInfo.

Record t : Type := mk {
  model_id : string;
  name : string;
  version : string;
  model_type : ModelType.t;
  description : string;
  supported_context_types : list ContextType.t;
  status : ModelStatus.t;
  metadata : option (PyDict.t PyVal.t)
}.

(** [info.status = value] *)
Definition with_status (value : ModelStatus.t) (info : t) : t :=
  mk (model_id info) (name info) (version info) (model_type info)
     (description info) (supported_context_types info) value (metadata info).

End ModelInfo.

(** ** The store of shared objects *)

(** A reference to an object.  [AIModel] objects and [ModelInfo] objects
    have a heap each; every reference denotes an object (Python has no
    dangling reference), and an object that was never built is one
    nothing refers to. *)
Definition loc : Type := nat.

(** An [AIModel] object: the two attributes [AIModel.__init__] sets and
    the attributes [attrs] its concrete class adds. *)
Record AIModelObj (Ext : Type) : Type := mkAIModel {
  model_info : loc;
  _last_run_time : float;
  attrs : Ext
}.
Arguments mkAIModel {Ext} _ _ _.
Arguments model_info {Ext} _.
Arguments _last_run_time {Ext} _.
Arguments attrs {Ext} _.

(** [clock n] is what the [n]-th call of [time.time()] returns, [ticks]
    counts the calls made. *)
Record World (Ext : Type) : Type := mkWorld {
  infos : loc -> ModelInfo.t;
  models : loc -> AIModelObj Ext;
  clock : nat -> float;
  ticks : nat;
  log : list Logging.LogRecord
}.
Arguments mkWorld {Ext} _ _ _ _ _.
Arguments infos {Ext} _ _.
Arguments models {Ext} _ _.
Arguments clock {Ext} _ _.
Arguments ticks {Ext} _.
Arguments log {Ext} _.

(** Code that reads and writes the store and may raise.  The store an
    exception leaves behind is the one at the [raise]: nothing is rolled
    back. *)
Definition M (Ext A : Type) : Type := World Ext -> Result A * World Ext.

Definition mret {Ext A} (a : A) : M Ext A := fun w => (Ret a, w).

Definition mbind {Ext A B} (c : M Ext A) (k : A -> M Ext B) : M Ext B :=
  fun w =>
    match c w with
    | (Ret a, w') => k a w'
    | (Raise e, w') => (Raise e, w')
    end.

Definition mraise {Ext A} (e : PyExc) : M Ext A := fun w => (Raise e, w).

Definition mlift {Ext A} (r : Result A) : M Ext A := fun w => (r, w).

(** [try: body except Exception as e: handler(e)] *)
Definition try_except_Exception {Ext A} (body : M Ext A) (handler : PyExc -> M Ext A)
  : M Ext A :=
  fun w =>
    match body w with
    | (Ret a, w') => (Ret a, w')
    | (Raise e, w') => if is_Exception e then handler e w' else (Raise e, w')
    end.

Declare Scope monad_scope.
Delimit Scope monad_scope with monad.
Notation "x <- c ;; k" := (mbind c (fun x => k))
  (at level 100, c at next level, right associativity) : monad_scope.
Notation "c ;; k" := (mbind c (fun _ => k))
  (at level 100, right associativity) : monad_scope.

Module Store.
Section Store.
Context {Ext : Type}.

Definition read {A} (f : World Ext -> A) : M Ext A := fun w => (Ret (f w), w).

Definition write (f : World Ext -> World Ext) : M Ext unit := fun w => (Ret tt, f w).

Definition set_info (i : loc) (info : ModelInfo.t) (w : World Ext) : World Ext :=
  mkWorld (<[i := info]> (infos w)) (models w) (clock w) (ticks w) (log w).

Definition set_model (r : loc) (m : AIModelObj Ext) (w : World Ext) : World Ext :=
  mkWorld (infos w) (<[r := m]> (models w)) (clock w) (ticks w) (log w).

Definition add_log (rec : Logging.LogRecord) (w : World Ext) : World Ext :=
  mkWorld (infos w) (models w) (clock w) (ticks w) (log w ++ [rec]).

Definition tick (w : World Ext) : World Ext :=
  mkWorld (infos w) (models w) (clock w) (S (ticks w)) (log w).

(** [time.time()] *)
Definition time_time : M Ext float := fun w => (Ret (clock w (ticks w)), tick w).

(** [time.sleep(secs)]: the caller waits; of the store, nothing changes. *)
Definition time_sleep (secs : nat) : M Ext unit := mret tt.

Definition logger_info (m : string) : M Ext unit :=
  write (add_log (Logging.mkLogRecord Logging.INFO m None)).

Definition logger_warning (m : string) : M Ext unit :=
  write (add_log (Logging.mkLogRecord Logging.WARNING m None)).

Definition logger_error (m : string) : M Ext unit :=
  write (add_log (Logging.mkLogRecord Logging.ERROR m None)).

(** [logger.exception(m)] inside the handler of [e] *)
Definition logger_exception (m : string) (e : PyExc) : M Ext unit :=
  write (add_log (Logging.mkLogRecord Logging.ERROR m (Some e))).

End Store.
End Store.

(** ** [ai/model_manager.py]: the abstract base class *)

(** The two abstract methods.  Python dispatches on the class of [self];
    here one implementation serves the whole store and may look at the
    object [self] refers to.  An implementation may read and write all of
    the store: [self] is an ordinary object to it. *)
Class AIModelMethods (Ext : Type) : Type := {
  initialize : loc -> M Ext bool;
  run : loc -> ModelContext.t -> M Ext ModelContext.t
}.

Module AIModel.
Section AIModel.
Context {Ext : Type}.
Local Open Scope monad_scope.

(** The [ModelInfo] object [self.model_info] refers to. *)
Definition info_of (w : World Ext) (self : loc) : ModelInfo.t :=
  infos w (model_info (models w self)).

(** The reading of the property [self.status]. *)
Definition status_of (w : World Ext) (self : loc) : ModelStatus.t :=
  ModelInfo.status (info_of w self).

(** The reading of the property [self.last_run_time]. *)
Definition last_run_time_of (w : World Ext) (self : loc) : float :=
  _last_run_time (models w self).

Definition model_id (self : loc) : M Ext string :=
  Store.read (fun w => ModelInfo.model_id (info_of w self)).

Definition status (self : loc) : M Ext ModelStatus.t :=
  Store.read (fun w => status_of w self).

(** The setter of [status]: [self.model_info.status = value]. *)
Definition set_status (self : loc) (value : ModelStatus.t) : M Ext unit :=
  Store.write (fun w =>
    Store.set_info (model_info (models w self))
                   (ModelInfo.with_status value (info_of w self)) w).

Definition last_run_time (self : loc) : M Ext float :=
  Store.read (fun w => last_run_time_of w self).

Definition update_last_run_time (self : loc) : M Ext unit :=
  now <- Store.time_time ;;
  Store.write (fun w =>
    Store.set_model self
      (mkAIModel (model_info (models w self)) now (attrs (models w self))) w).

Definition supports_context_type (self : loc) (context_type : ContextType.t)
  : M Ext bool :=
  Store.read (fun w =>
    bool_decide (context_type ∈ ModelInfo.supported_context_types (info_of w self))).

End AIModel.
End AIModel.

(** ** [ai/model_manager.py]: the manager *)

Module ModelManager.

(** The dictionary [_models] is the manager's own; it holds references
    to model objects. *)
Record t : Type := mk { _models : PyDict.t loc }.

(** [ModelManager()] *)
Definition init : t := mk PyDict.empty.

Section ModelManager.
Context {Ext : Type} `{AIModelMethods Ext}.
Local Open Scope monad_scope.
Import ModelStatus (READY, RUNNING, ERROR).

(** Returns the flag and the manager after the call. *)
Definition register_model (self : t) (model : loc) : M Ext (bool * t) :=
  model_id <- AIModel.model_id model ;;
  if PyDict.contains model_id (_models self) then
    Store.logger_warning ("Model with ID " +:+ model_id +:+ " already exists.") ;;
    mret (false, self)
  else
    mret (true, mk (PyDict.set model_id model (_models self))).

(** An [AIModel] object is true: neither the base class nor a class of
    this repository defines [__bool__] or [__len__]; [not model] holds
    of [None] alone. *)
Definition initialize_model (self : t) (model_id : string) : M Ext bool :=
  match PyDict.get model_id (_models self) with
  | None =>
      Store.logger_error ("Model with ID " +:+ model_id +:+ " not found.") ;;
      mret false
  | Some model =>
      try_except_Exception
        (success <- initialize model ;;
         (if success : bool
          then AIModel.set_status model READY
          else AIModel.set_status model ERROR) ;;
         mret success)
        (fun e =>
         Store.logger_exception
           ("Error initializing model " +:+ model_id +:+ ": " +:+ exc_str e) e ;;
         AIModel.set_status model ERROR ;;
         mret false)
  end.

Definition run_model (self : t) (model_id : string) (context : ModelContext.t)
  : M Ext (option ModelContext.t) :=
  match PyDict.get model_id (_models self) with
  | None =>
      Store.logger_error ("Model with ID " +:+ model_id +:+ " not found.") ;;
      mret None
  | Some model =>
      st <- AIModel.status model ;;
      if negb (bool_decide (st = READY)) then
        Store.logger_error
          ("Model " +:+ model_id +:+ " is not ready. Current status: "
           +:+ ModelStatus.value st) ;;
        mret None
      else
        supported <- AIModel.supports_context_type model (ModelContext.context_type context) ;;
        if negb supported then
          Store.logger_error
            ("Model " +:+ model_id +:+ " does not support context type "
             +:+ ContextType.value (ModelContext.context_type context)) ;;
          mret None
        else
          try_except_Exception
            (AIModel.set_status model RUNNING ;;
             result <- run model context ;;
             AIModel.set_status model READY ;;
             AIModel.update_last_run_time model ;;
             mret (Some result))
            (fun e =>
             Store.logger_exception
               ("Error running model " +:+ model_id +:+ ": " +:+ exc_str e) e ;;
             AIModel.set_status model ERROR ;;
             mret None)
  end.

Definition get_model (self : t) (model_id : string) : option loc :=
  PyDict.get model_id (_models self).

(** The list returned holds [m.model_info] of each model kept: references
    to the [ModelInfo] objects the models hold.  A member of [ModelType]
    is true, so [if model_type] tests for [None]. *)
Definition list_models (self : t) (model_type : option ModelType.t) : M Ext (list loc) :=
  Store.read (fun w =>
    let models0 := PyDict.values (_models self) in
    let models1 :=
      match model_type with
      | Some mt =>
          filter (fun m => ModelInfo.model_type (AIModel.info_of w m) = mt) models0
      | None => models0
      end in
    (fun m => model_info (models w m)) <$> models1).

Definition unregister_model (self : t) (model_id : string) : bool * t :=
  if PyDict.contains model_id (_models self)
  then (true, mk (PyDict.del model_id (_models self)))
  else (false, self).

End ModelManager.
End ModelManager.

(** ** [mcp/model_context.py]: the registry *)

Module ContextRegistry.

Record t : Type := mk { _contexts : PyDict.t ModelContext.t }.

(** [ContextRegistry()] *)
Definition init : t := mk PyDict.empty.

Section ContextRegistry.
Context {Ext : Type}.
Local Open Scope monad_scope.

(** Returns the registry after the call ([register] itself returns
    [None]). *)
Definition register (self : t) (context : ModelContext.t) : M Ext t :=
  (if PyDict.contains (ModelContext.context_id context) (_contexts self)
   then Store.logger_warning
          ("Context with ID " +:+ ModelContext.context_id context
           +:+ " already exists. Overwriting.")
   else mret tt) ;;
  mret (mk (PyDict.set (ModelContext.context_id context) context (_contexts self))).

End ContextRegistry.

Definition get (self : t) (context_id : string) : option ModelContext.t :=
  PyDict.get context_id (_contexts self).

(** A member of either enumeration is true, so [if context_type] and
    [if model_type] test for [None]. *)
Definition list (self : t) (context_type : option ContextType.t)
  (model_type : option ModelType.t) : list ModelContext.t :=
  let results0 := PyDict.values (_contexts self) in
  let results1 :=
    match context_type with
    | Some ct =>
        filter (fun ctx => ModelContext.context_type ctx = ct) results0
    | None => results0
    end in
  match model_type with
  | Some mt =>
      filter (fun ctx => ModelContext.model_type ctx = Some mt) results1
  | None => results1
  end.

Definition delete (self : t) (context_id : string) : bool * t :=
  if PyDict.contains context_id (_contexts self)
  then (true, mk (PyDict.del context_id (_contexts self)))
  else (false, self).

End ContextRegistry.

(** ** [ai/language_model.py] *)

(** The two builtins [LanguageModel.run] applies to the payload. *)
Module Builtins.

(** [v[:n]] *)
Definition slice_to (n : nat) (v : PyVal.t) : Result PyVal.t :=
  match v with
  | VStr s => Ret (VStr (String.substring 0 n s))
  | VList xs => Ret (VList (take n xs))
  | VNdarray a =>
      match NdArray.shape a with
      | [] => Raise (mkExc IndexError "too many indices for array")
      | d :: shp =>
          Ret (VNdarray
                 (NdArray.mk (Nat.min n d :: shp)
                    (take (Nat.min n d * NdArray.size_of shp) (NdArray.buffer a))))
      end
  | VDict _ => Raise (mkExc TypeError "unhashable type: 'slice'")
  | VNone => Raise (mkExc TypeError "'NoneType' object is not subscriptable")
  | VBool _ => Raise (mkExc TypeError "'bool' object is not subscriptable")
  | VInt _ => Raise (mkExc TypeError "'int' object is not subscriptable")
  | VFloat _ => Raise (mkExc TypeError "'float' object is not subscriptable")
  end.

(** What an f-string puts for [{v}]: a [str] as it is, any other value
    through its [__str__], which [str_of] stands for. *)
Definition format (str_of : PyVal.t -> string) (v : PyVal.t) : string :=
  match v with
  | VStr s => s
  | _ => str_of v
  end.

End Builtins.

Module LanguageModel.

(** What the module takes from outside the repository: whether
    [import transformers] succeeded, the loaders and the generation of
    that library (objects of the library are named by handles, and one
    outcome of the sampling stands for each input), and [str] of the
    values that are not strings. *)
Class Externals : Type := {
  TRANSFORMERS_AVAILABLE : bool;
  tokenizer_from_pretrained : string -> Result nat;
  model_from_pretrained : string -> Result nat;
  model_to : nat -> string -> Result unit;
  generate : option nat -> nat -> string -> PyVal.t -> Result string;
  str_of : PyVal.t -> string
}.

(** The attributes [LanguageModel.__init__] adds. *)
Record attrs_t : Type := mk {
  model_name : string;
  device : string;
  model : option nat;
  tokenizer : option nat
}.

(** [LanguageModel(model_info, model_name, device)] *)
Definition init (info : loc) (model_name device : string) : AIModelObj attrs_t :=
  mkAIModel info 0%float (mk model_name device None None).

Section LanguageModel.
Context `{Externals}.
Local Open Scope monad_scope.

Definition set_tokenizer (self : loc) (v : option nat) : M attrs_t unit :=
  Store.write (fun w =>
    let o := models w self in
    let a := attrs o in
    Store.set_model self
      (mkAIModel (model_info o) (_last_run_time o)
         (mk (model_name a) (device a) (model a) v)) w).

Definition set_model (self : loc) (v : option nat) : M attrs_t unit :=
  Store.write (fun w =>
    let o := models w self in
    let a := attrs o in
    Store.set_model self
      (mkAIModel (model_info o) (_last_run_time o)
         (mk (model_name a) (device a) v (tokenizer a))) w).

Definition initialize (self : loc) : M attrs_t bool :=
  if negb TRANSFORMERS_AVAILABLE then
    Store.logger_warning "Using mock language model implementation." ;;
    Store.time_sleep 2 ;;
    mret true
  else
    try_except_Exception
      (name <- Store.read (fun w => model_name (attrs (models w self))) ;;
       Store.logger_info ("Loading language model " +:+ name) ;;
       tok <- mlift (tokenizer_from_pretrained name) ;;
       set_tokenizer self (Some tok) ;;
       m <- mlift (model_from_pretrained name) ;;
       set_model self (Some m) ;;
       dev <- Store.read (fun w => device (attrs (models w self))) ;;
       mlift (model_to m dev) ;;
       mret true)
      (fun e =>
       Store.logger_exception ("Error loading language model: " +:+ exc_str e) e ;;
       mret false).

Definition run (self : loc) (context : ModelContext.t) : M attrs_t ModelContext.t :=
  if negb (bool_decide (ModelContext.context_type context = ContextType.TEXT)) then
    mraise (mkExc ValueError
              ("Unsupported context type: "
               +:+ ContextType.value (ModelContext.context_type context)))
  else
    let input_text := ModelContext.data context in
    shown <- mlift (Builtins.slice_to 50 input_text) ;;
    Store.logger_info
      ("Running language model on input: " +:+ Builtins.format str_of shown +:+ "...") ;;
    a <- Store.read (fun w => attrs (models w self)) ;;
    output_text <-
      match negb TRANSFORMERS_AVAILABLE, model a with
      | false, Some m =>
          mlift (generate (tokenizer a) m (device a) input_text)
      | _, _ =>
          Store.logger_warning "Using mock language model generation." ;;
          quoted <- mlift (Builtins.slice_to 20 input_text) ;;
          Store.time_sleep 1 ;;
          mret ("Response to: " +:+ Builtins.format str_of quoted +:+ "... (mock output)")
      end ;;
    creation_time <- Store.time_time ;;
    let output_metadata :=
      ContextMetadata.mk creation_time ("language_model:" +:+ model_name a) "1.0"
        None (Some "text/plain") ["generated"; "language-model"] in
    mret (ModelContext.mk (ModelContext.context_id context +:+ "_response")
            ContextType.TEXT (VStr output_text) output_metadata
            (Some ModelType.LANGUAGE)).

#[export] Instance methods : AIModelMethods attrs_t :=
  Build_AIModelMethods attrs_t initialize run.

End LanguageModel.

(** [create_default_language_model(model_id)]: the [ModelInfo] it builds
    and the model object around a reference to it. *)
Definition default_model_info (model_id : string) : ModelInfo.t :=
  ModelInfo.mk model_id "GPT-2 Language Model" "1.0" ModelType.LANGUAGE
    "A transformer-based language model for text generation"
    [ContextType.TEXT] ModelStatus.INITIALIZING
    (Some [ ("model_architecture", VStr "transformer");
            ("parameters", VStr "124M");
            ("training_data", VStr "web text") ]).

Definition create_default_language_model (info : loc) : AIModelObj attrs_t :=
  init info "gpt2" "cpu".

End LanguageModel.

(** ** [ai/model_manager.py]: the dictionary form of [ModelInfo] *)

Module ModelInfoDict.
Import DictAccess.

(** [ModelStatus(v)] *)
Definition status_of_value (v : PyVal.t) : Result ModelStatus.t :=
  match v with
  | VStr s =>
      match List.find (fun st => String.eqb (ModelStatus.value st) s)
              [ModelStatus.INITIALIZING; ModelStatus.READY; ModelStatus.RUNNING;
               ModelStatus.ERROR; ModelStatus.STOPPED] with
      | Some st => Ret st
      | None => Raise (mkExc ValueError ("'" +:+ s +:+ "' is not a valid ModelStatus"))
      end
  | _ => Raise (mkExc ValueError "not a valid ModelStatus")
  end.

(** [self.metadata or {}]: None and the empty dictionary give the empty
    dictionary. *)
Definition metadata_or_empty (metadata : option (PyDict.t PyVal.t)) : PyDict.t PyVal.t :=
  match metadata with
  | Some (kv :: kvs) => kv :: kvs
  | Some [] | None => []
  end.

Definition to_dict (self : ModelInfo.t) : PyDict.t PyVal.t :=
  [ ("model_id", VStr (ModelInfo.model_id self));
    ("name", VStr (ModelInfo.name self));
    ("version", VStr (ModelInfo.version self));
    ("model_type", VStr (ModelType.value (ModelInfo.model_type self)));
    ("description", VStr (ModelInfo.description self));
    ("supported_context_types",
      VList ((fun ct => VStr (ContextType.value ct))
             <$> ModelInfo.supported_context_types self));
    ("status", VStr (ModelStatus.value (ModelInfo.status self)));
    ("metadata", VDict (metadata_or_empty (ModelInfo.metadata self))) ].

(** What [for ct in v] goes through: the items of a list, the keys of a
    dictionary, the characters of a string, the rows of an array. *)
Definition iterate (v : PyVal.t) : Result (list PyVal.t) :=
  match v with
  | VList xs => Ret xs
  | VDict kvs => Ret (VStr <$> PyDict.keys kvs)
  | VStr s => Ret ((fun c => VStr (String c EmptyString)) <$> String.list_ascii_of_string s)
  | VNdarray a =>
      match NdArray.shape a with
      | [] => Raise (mkExc TypeError "iteration over a 0-d array")
      | n :: shp =>
          Ret ((fun row => VNdarray (NdArray.mk shp row))
               <$> Tolist.rows n (NdArray.size_of shp) (NdArray.buffer a))
      end
  | VNone => Raise (mkExc TypeError "'NoneType' object is not iterable")
  | VBool _ => Raise (mkExc TypeError "'bool' object is not iterable")
  | VInt _ => Raise (mkExc TypeError "'int' object is not iterable")
  | VFloat _ => Raise (mkExc TypeError "'float' object is not iterable")
  end.

(** The lookups and the enum constructors in the order of the source,
    then the typing of what was found ([metadata] may be None, the
    default of the dataclass). *)
Definition from_dict (data : PyDict.t PyVal.t) : Result ModelInfo.t :=
  rbind (getitem data "model_id") (fun model_id =>
  rbind (getitem data "name") (fun name =>
  rbind (getitem data "version") (fun version =>
  rbind (rbind (getitem data "model_type") ModelType.of_value) (fun model_type =>
  rbind (getitem data "description") (fun description =>
  rbind (rbind (rbind (getitem data "supported_context_types") iterate)
               (rmapM ContextType.of_value)) (fun supported_context_types =>
  rbind (rbind (getitem data "status") status_of_value) (fun status =>
  let metadata := get_default data "metadata" (VDict []) in
  rbind (as_str "model_id" model_id) (fun model_id =>
  rbind (as_str "name" name) (fun name =>
  rbind (as_str "version" version) (fun version =>
  rbind (as_str "description" description) (fun description =>
  rbind (match metadata with
         | VNone => Ret None
         | VDict kvs => Ret (Some kvs)
         | _ => ill_typed "metadata"
         end) (fun metadata =>
  Ret (ModelInfo.mk model_id name version model_type description
         supported_context_types status metadata))))))))))))).

End ModelInfoDict.

(** ** [main.py]: text generation *)

Module Main.
Section Main.
Context {Ext : Type} `{AIModelMethods Ext}.
Local Open Scope monad_scope.

(** [setup_context_registry()] *)
Definition setup_context_registry : ContextRegistry.t := ContextRegistry.init.

(** The context [run_text_generation] builds around the text: [uuid_hex]
    is what [uuid.uuid4().hex] returns, [creation_time] what [time.time()]
    returns. *)
Definition input_context (input_text uuid_hex : string) (creation_time : float)
  : ModelContext.t :=
  let context_id := "text_input_" +:+ String.substring 0 8 uuid_hex in
  let metadata :=
    ContextMetadata.mk creation_time "user_input" "1.0" None (Some "text/plain") [] in
  ModelContext.mk context_id ContextType.TEXT (VStr input_text) metadata
    (Some ModelType.LANGUAGE).

(** [uuid_hex] is what [uuid.uuid4().hex] returns in this call.  The
    result is what the function returns and the registry after the call;
    when the call raises, the registry is the one that holds the input
    context, every raise coming after the first [register] and before the
    second.  A [ModelContext] is true, so [not output_context] tests for
    None. *)
Definition run_text_generation (manager : ModelManager.t) (registry : ContextRegistry.t)
    (input_text : string) (uuid_hex : string)
  : M Ext (option PyVal.t * ContextRegistry.t) :=
  creation_time <- Store.time_time ;;
  let input_context := input_context input_text uuid_hex creation_time in
  registry1 <- ContextRegistry.register registry input_context ;;
  listed <- ModelManager.list_models manager (Some ModelType.LANGUAGE) ;;
  match listed with
  | [] =>
      Store.logger_error "No language models available" ;;
      mret (None, registry1)
  | first :: _ =>
      model_id <- Store.read (fun w => ModelInfo.model_id (infos w first)) ;;
      match ModelManager.get_model manager model_id with
      | None =>
          mraise (mkExc AttributeError "'NoneType' object has no attribute 'status'")
      | Some model =>
          st <- AIModel.status model ;;
          initialized <-
            (if bool_decide (st = ModelStatus.INITIALIZING) then
               Store.logger_info ("Initializing model " +:+ model_id) ;;
               ok <- ModelManager.initialize_model manager model_id ;;
               if negb ok then
                 Store.logger_error ("Failed to initialize model " +:+ model_id) ;;
                 mret false
               else mret true
             else mret true) ;;
          if negb initialized then mret (None, registry1)
          else
            Store.logger_info ("Running model " +:+ model_id) ;;
            output_context <- ModelManager.run_model manager model_id input_context ;;
            match output_context with
            | None =>
                Store.logger_error ("Failed to run model " +:+ model_id) ;;
                mret (None, registry1)
            | Some output =>
                registry2 <- ContextRegistry.register registry1 output ;;
                mret (Some (ModelContext.data output), registry2)
            end
      end
  end.

End Main.
End Main.



(** The store a computation leaves. *)
Definition exec {Ext A : Type} (c : M Ext A) (w : World Ext) : World Ext := (c w).2.

(** ** A concrete store *)

(** The default language model of [main.py] in an interpreter without
    transformers, so that the model takes its mock path, beside a second
    model of the same class; the properties below are run on it. *)
Module Demo.

(** Without the import the names of the library are unbound; [str] of a
    value that is not a string is not needed for the text payloads here. *)
Definition externals : LanguageModel.Externals :=
  LanguageModel.Build_Externals false
    (fun _ => Raise (mkExc (OtherException "NameError") "name 'AutoTokenizer' is not defined"))
    (fun _ => Raise (mkExc (OtherException "NameError") "name 'AutoModelForCausalLM' is not defined"))
    (fun _ _ => Raise (mkExc AttributeError "'NoneType' object has no attribute 'to'"))
    (fun _ _ _ _ => Raise (mkExc AttributeError "'NoneType' object has no attribute 'encode'"))
    (fun _ => "<object>").

Definition methods : AIModelMethods LanguageModel.attrs_t :=
  @LanguageModel.methods externals.

Definition clock (n : nat) : float :=
  match n with
  | 0 => 1714169836.5%float
  | 1 => 1714169837.75%float
  | _ => 1714169840%float
  end.

(** Model object 0 holds info object 0, every other model object holds
    info object 1; [status] is the status of info object 0. *)
Definition world (status : ModelStatus.t) : World LanguageModel.attrs_t :=
  mkWorld
    (fun i =>
       match i with
       | 0 => ModelInfo.with_status status
                (LanguageModel.default_model_info "default_language_model")
       | _ => LanguageModel.default_model_info "second_language_model"
       end)
    (fun r =>
       match r with
       | 0 => LanguageModel.create_default_language_model 0
       | _ => LanguageModel.create_default_language_model 1
       end)
    clock 0 [].

(** The manager of [setup_model_manager]. *)
Definition manager : ModelManager.t :=
  ModelManager.mk [("default_language_model", 0)].

Definition user_metadata : ContextMetadata.t :=
  ContextMetadata.mk 1714169830%float "user_input" "1.0" None (Some "text/plain")
    ["user"; "prompt"].

Definition text_context : ModelContext.t :=
  ModelContext.mk "ctx-1" ContextType.TEXT (VStr "Hello, world") user_metadata None.

Definition image_context : ModelContext.t :=
  ModelContext.mk "ctx-2" ContextType.IMAGE (VStr "photo.png") user_metadata None.

(** A TEXT context whose payload cannot be sliced: [run] raises
    [TypeError] on it. *)
Definition broken_context : ModelContext.t :=
  ModelContext.mk "ctx-3" ContextType.TEXT VNone user_metadata None.

(** A second context under the id of [text_context]. *)
Definition text_context_again : ModelContext.t :=
  ModelContext.mk "ctx-1" ContextType.TEXT (VStr "Hello again") user_metadata
    (Some ModelType.LANGUAGE).

(** A 2 x 3 array of integers. *)
Definition matrix : NdArray.t :=
  NdArray.mk [2; 3]
    [NdArray.SInt 1; NdArray.SInt 2; NdArray.SInt 3;
     NdArray.SInt 4; NdArray.SInt 5; NdArray.SInt 6]%Z.

Definition numeric_context : ModelContext.t :=
  ModelContext.mk "ctx-4" ContextType.NUMERIC (VNdarray matrix)
    (ContextMetadata.mk 1714169830%float "sensor" "1.0" (Some [2; 3]%Z) None [])
    (Some ModelType.CUSTOM).

(** [run_model] of the default model on the store where it has the
    status given. *)
Definition run_default (context : ModelContext.t) (status : ModelStatus.t)
  : Result (option ModelContext.t) * World LanguageModel.attrs_t :=
  @ModelManager.run_model _ methods manager "default_language_model"
    context (world status).

(** What the mock language model answers to [text_context] at the first
    reading of the clock. *)
Definition response : ModelContext.t :=
  ModelContext.mk "ctx-1_response" ContextType.TEXT
    (VStr "Response to: Hello, world... (mock output)")
    (ContextMetadata.mk (clock 0) "language_model:gpt2" "1.0" None
       (Some "text/plain") ["generated"; "language-model"])
    (Some ModelType.LANGUAGE).

(** The manager after the second model is registered. *)
Definition two_models : ModelManager.t :=
  ModelManager.mk [("default_language_model", 0); ("second_language_model", 1)].

End Demo.

(** ** Further concrete stores *)

Module DemoMore.

(** Transformers present and loaded, and the generation interrupted from
    the keyboard. *)
Definition interrupted_externals : LanguageModel.Externals :=
  LanguageModel.Build_Externals true
    (fun _ => Ret 0)
    (fun _ => Ret 1)
    (fun _ _ => Ret tt)
    (fun _ _ _ _ => Raise (mkExc KeyboardInterrupt ""))
    (fun _ => "<object>").

Definition interrupted_methods : AIModelMethods LanguageModel.attrs_t :=
  @LanguageModel.methods interrupted_externals.

(** The default language model after [initialize] loaded tokenizer 0 and
    model 1. *)
Definition loaded_world : World LanguageModel.attrs_t :=
  mkWorld
    (fun _ => ModelInfo.with_status ModelStatus.READY
                (LanguageModel.default_model_info "default_language_model"))
    (fun _ => mkAIModel 0 0%float (LanguageModel.mk "gpt2" "cpu" (Some 1) (Some 0)))
    Demo.clock 0 [].

(** The store the interrupted [run] leaves. *)
Definition interrupted_store : World LanguageModel.attrs_t :=
  (@LanguageModel.run interrupted_externals 0 Demo.text_context
     (exec (AIModel.set_status 0 ModelStatus.RUNNING) loaded_world)).2.

(** A language model whose info lists IMAGE beside TEXT. *)
Definition misconfigured_world : World LanguageModel.attrs_t :=
  mkWorld
    (fun _ => ModelInfo.mk "default_language_model" "GPT-2 Language Model" "1.0"
                ModelType.LANGUAGE "A language model said to read images"
                [ContextType.TEXT; ContextType.IMAGE] ModelStatus.READY None)
    (fun _ => LanguageModel.create_default_language_model 0)
    Demo.clock 0 [].

(** A registry that holds the text and the image context. *)
Definition registry : ContextRegistry.t :=
  ContextRegistry.mk [("ctx-1", Demo.text_context); ("ctx-2", Demo.image_context)].

Definition uuid_hex : string := "9f1c2ab47d3e4c0e8a5b6d7f00112233".



End DemoMore.

(** * Properties *)

(** Unfolds the monad and the store accessors in the goal. *)
Ltac run_monad :=
  unfold AIModel.model_id, AIModel.status, AIModel.set_status,
    AIModel.last_run_time, AIModel.update_last_run_time,
    AIModel.supports_context_type in *;
  unfold Store.logger_info, Store.logger_warning, Store.logger_error,
    Store.logger_exception, Store.time_time, Store.time_sleep in *;
  unfold Store.read, Store.write in *;
  unfold mbind, mret, mraise, mlift, try_except_Exception in *;
  simpl in *.

(** ** Dictionaries *)

Module PyDictFacts.
Section PyDictFacts.
Context {V : Type}.
Implicit Types (d : PyDict.t V) (k : string) (v : V).

Lemma eqb_refl_true k : String.eqb k k = true.
Proof. apply String.eqb_refl. Qed.

Lemma eqb_false_of_ne k k' : k ≠ k' -> String.eqb k k' = false.
Proof. intros Hne. by apply String.eqb_neq. Qed.

Lemma get_set_eq k v d : PyDict.get k (PyDict.set k v d) = Some v.
Proof.
  induction d as [|[k' v'] d IH]; simpl.
  - by rewrite eqb_refl_true.
  - destruct (String.eqb k k') eqn:E; simpl; rewrite E; [done | exact IH].
Qed.

Lemma get_set_ne k k' v d :
  k ≠ k' -> PyDict.get k' (PyDict.set k v d) = PyDict.get k' d.
Proof.
  intros Hne. induction d as [|[k0 v0] d IH]; simpl.
  - rewrite eqb_false_of_ne; [done | congruence].
  - destruct (String.eqb k k0) eqn:E; simpl.
    + apply String.eqb_eq in E. subst k0.
      rewrite eqb_false_of_ne; [done | congruence].
    + destruct (String.eqb k' k0); [done | exact IH].
Qed.

Lemma contains_true k d :
  PyDict.contains k d = true <-> exists v, PyDict.get k d = Some v.
Proof.
  unfold PyDict.contains. destruct (PyDict.get k d) as [v|].
  - split; [intros _; by exists v | done].
  - split; [discriminate | intros [v Hv]; discriminate].
Qed.

Lemma contains_false k d :
  PyDict.contains k d = false <-> PyDict.get k d = None.
Proof. unfold PyDict.contains. by destruct (PyDict.get k d). Qed.

Lemma get_None_keys k d : PyDict.get k d = None <-> k ∉ PyDict.keys d.
Proof.
  induction d as [|[k' v'] d IH]; simpl.
  - split; [intros _; apply not_elem_of_nil | done].
  - rewrite not_elem_of_cons. destruct (String.eqb k k') eqn:E.
    + apply String.eqb_eq in E. split; [done | intros [? _]; done].
    + apply String.eqb_neq in E. rewrite IH. tauto.
Qed.

Lemma keys_set_old k v d :
  PyDict.contains k d = true -> PyDict.keys (PyDict.set k v d) = PyDict.keys d.
Proof.
  induction d as [|[k' v'] d IH]; simpl.
  - discriminate.
  - unfold PyDict.contains in *. simpl.
    destruct (String.eqb k k') eqn:E; simpl; [done |].
    intros Hc. f_equal. by apply IH.
Qed.

Lemma keys_set_new k v d :
  PyDict.contains k d = false -> PyDict.keys (PyDict.set k v d) = PyDict.keys d ++ [k].
Proof.
  induction d as [|[k' v'] d IH]; simpl; [done |].
  unfold PyDict.contains in *. simpl.
  destruct (String.eqb k k') eqn:E; simpl; [discriminate |].
  intros Hc. f_equal. by apply IH.
Qed.

(** Assignment keeps the keys apart. *)
Lemma wf_set k v d : PyDict.wf d -> PyDict.wf (PyDict.set k v d).
Proof.
  unfold PyDict.wf. intros Hwf.
  destruct (PyDict.contains k d) eqn:E.
  - by rewrite keys_set_old.
  - rewrite keys_set_new by done.
    apply list.NoDup_app. split; [done |]. split.
    + intros x Hx Hk. apply list_elem_of_singleton in Hk. subst x.
      apply contains_false, get_None_keys in E. done.
    + apply list.NoDup_singleton.
Qed.

(** In a dictionary an entry is listed exactly when [get] finds it. *)
Lemma elem_of_get k v d :
  PyDict.wf d -> (k, v) ∈ d <-> PyDict.get k d = Some v.
Proof.
  unfold PyDict.wf. induction d as [|[k' v'] d IH]; simpl; intros Hwf.
  - split; [intros Hin; by apply elem_of_nil in Hin | done].
  - apply list.NoDup_cons in Hwf as [Hk' Hwf]. rewrite elem_of_cons.
    destruct (String.eqb k k') eqn:E.
    + apply String.eqb_eq in E. subst k'. split.
      * intros [Heq | Hin]; [congruence |].
        exfalso. apply Hk'. apply list_elem_of_fmap. by exists (k, v).
      * intros [= ->]. by left.
    + apply String.eqb_neq in E. rewrite <- IH by done. split.
      * intros [Heq | Hin]; [congruence | done].
      * by right.
Qed.

Lemma elem_of_values v d :
  PyDict.wf d -> v ∈ PyDict.values d <-> exists k, PyDict.get k d = Some v.
Proof.
  intros Hwf. unfold PyDict.values. rewrite list_elem_of_fmap. split.
  - intros [[k v0] [-> Hin]]. exists k. by apply elem_of_get.
  - intros [k Hk]. exists (k, v). split; [done |]. by apply elem_of_get.
Qed.

Lemma wf_empty : PyDict.wf (@PyDict.empty V).
Proof. apply list.NoDup_nil. done. Qed.

Lemma keys_del k k' d : k' ∈ PyDict.keys (PyDict.del k d) -> k' ∈ PyDict.keys d.
Proof.
  induction d as [|[k0 v0] d IH]; simpl; [done |].
  destruct (String.eqb k k0); simpl; rewrite !elem_of_cons; [tauto |].
  intros [-> | Hin]; [by left | right; by apply IH].
Qed.

(** Deletion keeps the keys apart. *)
Lemma wf_del k d : PyDict.wf d -> PyDict.wf (PyDict.del k d).
Proof.
  unfold PyDict.wf. induction d as [|[k0 v0] d IH]; simpl; [done |].
  intros [Hk0 Hwf]%list.NoDup_cons.
  destruct (String.eqb k k0); simpl; [done |].
  apply list.NoDup_cons. split; [| by apply IH].
  intros Hin. apply Hk0. by apply keys_del in Hin.
Qed.

End PyDictFacts.
End PyDictFacts.

(** ** Registration in the manager *)

(** C7: registering a model whose model_id is not yet in the manager
    returns true, [get_model] of that id then returns that very model
    object, every other id is looked up as before, and the store - so the
    status of the model - is the one before the call. *)
Theorem register_model_fresh {Ext : Type} (self : ModelManager.t) (model : loc)
    (w : World Ext) :
  let model_id := ModelInfo.model_id (AIModel.info_of w model) in
  ModelManager.get_model self model_id = None ->
  exists self' w',
    ModelManager.register_model self model w = (Ret (true, self'), w')
    /\ ModelManager.get_model self' model_id = Some model
    /\ (forall k, k ≠ model_id ->
        ModelManager.get_model self' k = ModelManager.get_model self k)
    /\ w' = w
    /\ AIModel.status_of w' model = AIModel.status_of w model.
Proof.
  intros model_id Hfresh.
  exists (ModelManager.mk (PyDict.set model_id model (ModelManager._models self))), w.
  unfold ModelManager.get_model in *.
  apply PyDictFacts.contains_false in Hfresh.
  unfold ModelManager.register_model. run_monad.
  fold model_id. rewrite Hfresh.
  repeat split.
  - apply PyDictFacts.get_set_eq.
  - intros k Hk. apply PyDictFacts.get_set_ne. congruence.
Qed.

(** C6: registering a second model under a model_id the manager already
    holds returns false and hands back the manager as it was, so
    [get_model] of that id still returns the original model object; of the
    store only the log changes, by the warning. *)
Theorem register_model_duplicate {Ext : Type} (self : ModelManager.t)
    (original second : loc) (w : World Ext) :
  let model_id := ModelInfo.model_id (AIModel.info_of w second) in
  ModelManager.get_model self model_id = Some original ->
  exists self' w',
    ModelManager.register_model self second w = (Ret (false, self'), w')
    /\ self' = self
    /\ ModelManager.get_model self' model_id = Some original
    /\ infos w' = infos w
    /\ models w' = models w
    /\ log w' = log w ++ [Logging.mkLogRecord Logging.WARNING
                           ("Model with ID " +:+ model_id +:+ " already exists.") None].
Proof.
  intros model_id Hheld.
  assert (Hc : PyDict.contains model_id (ModelManager._models self) = true).
  { apply PyDictFacts.contains_true. by exists original. }
  eexists self, _.
  unfold ModelManager.register_model. run_monad.
  fold model_id. rewrite Hc.
  repeat split; done.
Qed.

(** ** The context registry *)

(** C8: after two contexts with the same context_id are registered one
    after the other, [get] of that id returns the second, every other id
    is looked up as before the two calls, and the second call returns
    normally having logged one record, a warning. *)
Theorem register_overwrites {Ext : Type} (self : ContextRegistry.t)
    (first second : ModelContext.t) (w : World Ext) :
  ModelContext.context_id first = ModelContext.context_id second ->
  exists reg1 w1 reg2 w2,
    ContextRegistry.register self first w = (Ret reg1, w1)
    /\ ContextRegistry.register reg1 second w1 = (Ret reg2, w2)
    /\ ContextRegistry.get reg2 (ModelContext.context_id second) = Some second
    /\ (forall k c, ContextRegistry.get reg2 k = Some c ->
        (k = ModelContext.context_id second /\ c = second)
        \/ (k ≠ ModelContext.context_id second /\ ContextRegistry.get self k = Some c))
    /\ log w2 = log w1 ++ [Logging.mkLogRecord Logging.WARNING
                            ("Context with ID " +:+ ModelContext.context_id second
                             +:+ " already exists. Overwriting.") None].
Proof.
  intros Hid.
  set (cid := ModelContext.context_id second) in *.
  set (d1 := PyDict.set cid first (ContextRegistry._contexts self)).
  assert (Hc : PyDict.contains cid d1 = true).
  { apply PyDictFacts.contains_true. exists first. apply PyDictFacts.get_set_eq. }
  exists (ContextRegistry.mk d1).
  destruct (ContextRegistry.register self first w) as [r1 w1] eqn:E1.
  assert (Hr1 : r1 = Ret (ContextRegistry.mk d1)).
  { unfold ContextRegistry.register in E1. run_monad. rewrite Hid in E1.
    destruct (PyDict.contains cid (ContextRegistry._contexts self));
      simpl in E1; by inversion E1. }
  subst r1. exists w1, (ContextRegistry.mk (PyDict.set cid second d1)).
  eexists. split; [done |].
  unfold ContextRegistry.register, ContextRegistry.get. run_monad.
  fold cid. rewrite Hc. simpl. split; [done |].
  split; [apply PyDictFacts.get_set_eq |].
  split; [| done].
  intros k c Hk. destruct (decide (k = cid)) as [-> | Hne].
  - left. rewrite PyDictFacts.get_set_eq in Hk. split; congruence.
  - right. split; [done |].
    rewrite PyDictFacts.get_set_ne in Hk by congruence.
    unfold d1 in Hk. by rewrite PyDictFacts.get_set_ne in Hk by congruence.
Qed.

(** ** The lifecycle state machine *)

Lemma status_of_set_status {Ext : Type} (m : loc) (s : ModelStatus.t) (w : World Ext) :
  AIModel.status_of (exec (AIModel.set_status m s) w) m = s.
Proof.
  unfold exec, AIModel.status_of, AIModel.info_of. run_monad.
  by rewrite fn_lookup_insert.
Qed.

Lemma last_run_time_of_set_status {Ext : Type} (m r : loc) (s : ModelStatus.t)
    (w : World Ext) :
  AIModel.last_run_time_of (exec (AIModel.set_status m s) w) r
  = AIModel.last_run_time_of w r.
Proof. reflexivity. Qed.

Lemma last_run_time_of_add_log {Ext : Type} (rec : Logging.LogRecord) (r : loc)
    (w : World Ext) :
  AIModel.last_run_time_of (Store.add_log rec w) r = AIModel.last_run_time_of w r.
Proof. reflexivity. Qed.

(** The two guards of [run_model] that reject a registered model: what
    the call computes when one of them fires. *)
Lemma run_model_status_guard {Ext : Type} `{AIModelMethods Ext} (self : ModelManager.t)
    (model_id : string) (m : loc) (context : ModelContext.t) (w : World Ext) :
  ModelManager.get_model self model_id = Some m ->
  AIModel.status_of w m ≠ ModelStatus.READY ->
  ModelManager.run_model self model_id context w
  = (Ret None,
     Store.add_log
       (Logging.mkLogRecord Logging.ERROR
          ("Model " +:+ model_id +:+ " is not ready. Current status: "
           +:+ ModelStatus.value (AIModel.status_of w m)) None) w).
Proof.
  intros Hreg Hst. unfold ModelManager.get_model in Hreg.
  unfold ModelManager.run_model. rewrite Hreg. run_monad.
  by rewrite bool_decide_eq_false_2.
Qed.

Lemma run_model_type_guard {Ext : Type} `{AIModelMethods Ext} (self : ModelManager.t)
    (model_id : string) (m : loc) (context : ModelContext.t) (w : World Ext) :
  ModelManager.get_model self model_id = Some m ->
  AIModel.status_of w m = ModelStatus.READY ->
  ModelContext.context_type context
    ∉ ModelInfo.supported_context_types (AIModel.info_of w m) ->
  ModelManager.run_model self model_id context w
  = (Ret None,
     Store.add_log
       (Logging.mkLogRecord Logging.ERROR
          ("Model " +:+ model_id +:+ " does not support context type "
           +:+ ContextType.value (ModelContext.context_type context)) None) w).
Proof.
  intros Hreg Hst Hsup. unfold ModelManager.get_model in Hreg.
  unfold ModelManager.run_model. rewrite Hreg. run_monad.
  rewrite Hst. simpl. by rewrite bool_decide_eq_false_2.
Qed.

(** C3: when the model registered under [model_id] is not READY,
    [run_model] returns None for every context; the store it leaves is
    the one before with one error record logged, so the status of the
    model is what it was. *)
Theorem run_model_not_ready {Ext : Type} `{AIModelMethods Ext} (self : ModelManager.t)
    (model_id : string) (m : loc) (context : ModelContext.t) (w : World Ext) :
  ModelManager.get_model self model_id = Some m ->
  AIModel.status_of w m ≠ ModelStatus.READY ->
  exists w',
    ModelManager.run_model self model_id context w = (Ret None, w')
    /\ AIModel.status_of w' m = AIModel.status_of w m
    /\ w' = Store.add_log
              (Logging.mkLogRecord Logging.ERROR
                 ("Model " +:+ model_id +:+ " is not ready. Current status: "
                  +:+ ModelStatus.value (AIModel.status_of w m)) None) w.
Proof.
  intros Hreg Hst. eexists.
  split; [by apply (run_model_status_guard self model_id m) |].
  split; reflexivity.
Qed.

(** C2: when the model registered under [model_id] is READY and the
    context_type of the context is not among its supported types,
    [run_model] returns None and the status is still READY; whatever
    [run] is, the store left is the one before with one error record
    logged: [run] had no part in it. *)
Theorem run_model_unsupported {Ext : Type} `{AIModelMethods Ext} (self : ModelManager.t)
    (model_id : string) (m : loc) (context : ModelContext.t) (w : World Ext) :
  ModelManager.get_model self model_id = Some m ->
  AIModel.status_of w m = ModelStatus.READY ->
  ModelContext.context_type context
    ∉ ModelInfo.supported_context_types (AIModel.info_of w m) ->
  exists w',
    ModelManager.run_model self model_id context w = (Ret None, w')
    /\ AIModel.status_of w' m = ModelStatus.READY
    /\ w' = Store.add_log
              (Logging.mkLogRecord Logging.ERROR
                 ("Model " +:+ model_id +:+ " does not support context type "
                  +:+ ContextType.value (ModelContext.context_type context)) None) w.
Proof.
  intros Hreg Hst Hsup. eexists.
  split; [by apply (run_model_type_guard self model_id m) |].
  split; [exact Hst | reflexivity].
Qed.

(** What [run_model] computes once the three guards are passed: the
    body of its [try] statement, laid out by the outcome of [run]. *)
Lemma run_model_guarded {Ext : Type} `{AIModelMethods Ext} (self : ModelManager.t)
    (model_id : string) (m : loc) (context : ModelContext.t) (w : World Ext) :
  ModelManager.get_model self model_id = Some m ->
  AIModel.status_of w m = ModelStatus.READY ->
  ModelContext.context_type context
    ∈ ModelInfo.supported_context_types (AIModel.info_of w m) ->
  ModelManager.run_model self model_id context w
  = match run m context (exec (AIModel.set_status m ModelStatus.RUNNING) w) with
    | (Ret result, after) =>
        (Ret (Some result),
         exec (AIModel.update_last_run_time m)
           (exec (AIModel.set_status m ModelStatus.READY) after))
    | (Raise e, after) =>
        if is_Exception e then
          (Ret None,
           exec (AIModel.set_status m ModelStatus.ERROR)
             (Store.add_log
                (Logging.mkLogRecord Logging.ERROR
                   ("Error running model " +:+ model_id +:+ ": " +:+ exc_str e)
                   (Some e)) after))
        else (Raise e, after)
    end.
Proof.
  intros Hreg Hst Hsup. unfold ModelManager.get_model in Hreg.
  unfold ModelManager.run_model, exec. rewrite Hreg. run_monad.
  rewrite Hst. simpl.
  rewrite bool_decide_eq_true_2 by done. simpl.
  destruct (run m context _) as [[result | e] after]; [reflexivity |].
  by destruct (is_Exception e).
Qed.

(** C1: when the model registered under [model_id] is READY and
    supports the context_type of the context, [run_model] calls [run] on
    the context in the store where the status has been set to RUNNING.
    When [run] returns a context, [run_model] returns it, the status is
    READY and the last-run timestamp is the reading of the clock taken
    after [run]; when [run] raises an [Exception], [run_model] returns
    None and the status is ERROR. *)
Theorem run_model_ready_supported {Ext : Type} `{AIModelMethods Ext}
    (self : ModelManager.t) (model_id : string) (m : loc)
    (context : ModelContext.t) (w : World Ext) :
  ModelManager.get_model self model_id = Some m ->
  AIModel.status_of w m = ModelStatus.READY ->
  ModelContext.context_type context
    ∈ ModelInfo.supported_context_types (AIModel.info_of w m) ->
  let running := exec (AIModel.set_status m ModelStatus.RUNNING) w in
  AIModel.status_of running m = ModelStatus.RUNNING
  /\ match run m context running with
     | (Ret result, after) =>
         exists w',
           ModelManager.run_model self model_id context w = (Ret (Some result), w')
           /\ AIModel.status_of w' m = ModelStatus.READY
           /\ AIModel.last_run_time_of w' m = clock after (ticks after)
     | (Raise e, after) =>
         is_Exception e = true ->
         exists w',
           ModelManager.run_model self model_id context w = (Ret None, w')
           /\ AIModel.status_of w' m = ModelStatus.ERROR
     end.
Proof.
  intros Hreg Hst Hsup running.
  split; [apply status_of_set_status |].
  rewrite (run_model_guarded self model_id m context w Hreg Hst Hsup).
  fold running.
  destruct (run m context running) as [[result | e] after].
  - eexists. split; [reflexivity |]. split.
    + unfold exec, AIModel.status_of, AIModel.info_of. run_monad.
      rewrite fn_lookup_insert. simpl. by rewrite fn_lookup_insert.
    + unfold exec, AIModel.last_run_time_of. run_monad.
      by rewrite fn_lookup_insert.
  - intros Hexc. rewrite Hexc. eexists. split; [reflexivity |].
    apply status_of_set_status.
Qed.

(** What [initialize_model] computes on a registered model, laid out by
    the outcome of [initialize]. *)
Lemma initialize_model_registered {Ext : Type} `{AIModelMethods Ext}
    (self : ModelManager.t) (model_id : string) (m : loc) (w : World Ext) :
  ModelManager.get_model self model_id = Some m ->
  ModelManager.initialize_model self model_id w
  = match initialize m w with
    | (Ret success, after) =>
        (Ret success,
         exec (AIModel.set_status m
                 (if success then ModelStatus.READY else ModelStatus.ERROR)) after)
    | (Raise e, after) =>
        if is_Exception e then
          (Ret false,
           exec (AIModel.set_status m ModelStatus.ERROR)
             (Store.add_log
                (Logging.mkLogRecord Logging.ERROR
                   ("Error initializing model " +:+ model_id +:+ ": " +:+ exc_str e)
                   (Some e)) after))
        else (Raise e, after)
    end.
Proof.
  intros Hreg. unfold ModelManager.get_model in Hreg.
  unfold ModelManager.initialize_model, exec. rewrite Hreg. run_monad.
  destruct (initialize m w) as [[[|] | e] after]; reflexivity.
Qed.

(** C4: on an id the manager does not hold, [initialize_model] returns
    false and leaves the store as it was but for one error record (the
    manager itself is only read).  On a registered model it returns true
    with status READY when [initialize] returns true, and false with
    status ERROR when [initialize] returns false or raises an
    [Exception]. *)
Theorem initialize_model_outcomes {Ext : Type} `{AIModelMethods Ext}
    (self : ModelManager.t) (model_id : string) (w : World Ext) :
  match ModelManager.get_model self model_id with
  | None =>
      ModelManager.initialize_model self model_id w
      = (Ret false,
         Store.add_log
           (Logging.mkLogRecord Logging.ERROR
              ("Model with ID " +:+ model_id +:+ " not found.") None) w)
  | Some m =>
      match initialize m w with
      | (Ret true, after) =>
          exists w',
            ModelManager.initialize_model self model_id w = (Ret true, w')
            /\ AIModel.status_of w' m = ModelStatus.READY
      | (Ret false, after) =>
          exists w',
            ModelManager.initialize_model self model_id w = (Ret false, w')
            /\ AIModel.status_of w' m = ModelStatus.ERROR
      | (Raise e, after) =>
          is_Exception e = true ->
          exists w',
            ModelManager.initialize_model self model_id w = (Ret false, w')
            /\ AIModel.status_of w' m = ModelStatus.ERROR
      end
  end.
Proof.
  destruct (ModelManager.get_model self model_id) as [m |] eqn:Hreg.
  - rewrite (initialize_model_registered self model_id m w Hreg).
    destruct (initialize m w) as [[[|] | e] after].
    + eexists. split; [reflexivity | apply status_of_set_status].
    + eexists. split; [reflexivity | apply status_of_set_status].
    + intros Hexc. rewrite Hexc.
      eexists. split; [reflexivity | apply status_of_set_status].
  - unfold ModelManager.get_model in Hreg.
    unfold ModelManager.initialize_model. by rewrite Hreg.
Qed.

(** The language model of the repository never writes the timestamp:
    whatever [run] returns or raises, it leaves [_last_run_time] of every
    model object as it found it. *)
Lemma language_model_run_keeps_last_run_time `{LanguageModel.Externals}
    (self r : loc) (context : ModelContext.t) (w : World LanguageModel.attrs_t) :
  AIModel.last_run_time_of (exec (LanguageModel.run self context) w) r
  = AIModel.last_run_time_of w r.
Proof.
  unfold exec, LanguageModel.run.
  destruct (negb (bool_decide _)); [reflexivity |].
  run_monad.
  destruct (Builtins.slice_to 50 _) as [shown | e]; [| reflexivity]. simpl.
  destruct (negb LanguageModel.TRANSFORMERS_AVAILABLE).
  - destruct (Builtins.slice_to 20 _) as [quoted | e]; reflexivity.
  - destruct (LanguageModel.model _) as [m |].
    + destruct (LanguageModel.generate _ _ _ _) as [text | e]; reflexivity.
    + destruct (Builtins.slice_to 20 _) as [quoted | e]; reflexivity.
Qed.

(** C10: on each failure path of [run_model] the last-run timestamp of
    every model object is the one before the call: an id the manager does
    not hold, a model that is not READY, a context type the model does not
    support, and [run] raising, where the timestamp is the one [run]
    itself left. *)
Theorem last_run_time_kept_on_failure {Ext : Type} `{AIModelMethods Ext}
    (self : ModelManager.t) (model_id : string) (context : ModelContext.t)
    (w : World Ext) (r : loc) :
  let w' := exec (ModelManager.run_model self model_id context) w in
  (ModelManager.get_model self model_id = None ->
   AIModel.last_run_time_of w' r = AIModel.last_run_time_of w r)
  /\ (forall m, ModelManager.get_model self model_id = Some m ->
      AIModel.status_of w m ≠ ModelStatus.READY ->
      AIModel.last_run_time_of w' r = AIModel.last_run_time_of w r)
  /\ (forall m, ModelManager.get_model self model_id = Some m ->
      AIModel.status_of w m = ModelStatus.READY ->
      ModelContext.context_type context
        ∉ ModelInfo.supported_context_types (AIModel.info_of w m) ->
      AIModel.last_run_time_of w' r = AIModel.last_run_time_of w r)
  /\ (forall m e after, ModelManager.get_model self model_id = Some m ->
      AIModel.status_of w m = ModelStatus.READY ->
      ModelContext.context_type context
        ∈ ModelInfo.supported_context_types (AIModel.info_of w m) ->
      run m context (exec (AIModel.set_status m ModelStatus.RUNNING) w)
        = (Raise e, after) ->
      AIModel.last_run_time_of after r = AIModel.last_run_time_of w r ->
      AIModel.last_run_time_of w' r = AIModel.last_run_time_of w r).
Proof.
  intros w'. subst w'. repeat split.
  - intros Hnone. unfold ModelManager.get_model in Hnone.
    unfold exec, ModelManager.run_model. by rewrite Hnone.
  - intros m Hreg Hst. unfold exec.
    by rewrite (run_model_status_guard self model_id m context w Hreg Hst).
  - intros m Hreg Hst Hsup. unfold exec.
    by rewrite (run_model_type_guard self model_id m context w Hreg Hst Hsup).
  - intros m e after Hreg Hst Hsup Hraise Hkept.
    unfold exec at 1.
    rewrite (run_model_guarded self model_id m context w Hreg Hst Hsup), Hraise.
    destruct (is_Exception e); simpl; [| exact Hkept].
    rewrite last_run_time_of_set_status, last_run_time_of_add_log. exact Hkept.
Qed.

(** ** The dictionary round trip *)

Module RoundTrip.
Import DictAccess.

Lemma as_int_list (field : string) (l : list Z) :
  rmapM (as_int field) (VInt <$> l) = Ret l.
Proof.
  induction l as [|z l IH]; [done |].
  rewrite fmap_cons. simpl. by rewrite IH.
Qed.

Lemma as_str_list (field : string) (l : list string) :
  rmapM (as_str field) (VStr <$> l) = Ret l.
Proof.
  induction l as [|x l IH]; [done |].
  rewrite fmap_cons. simpl. by rewrite IH.
Qed.

Lemma context_type_of_value (c : ContextType.t) :
  ContextType.of_value (VStr (ContextType.value c)) = Ret c.
Proof. by destruct c. Qed.

Lemma model_type_of_value (m : ModelType.t) :
  ModelType.of_value (VStr (ModelType.value m)) = Ret m.
Proof. by destruct m. Qed.

Lemma model_type_value_truthy (m : ModelType.t) :
  PyVal.truthy (VStr (ModelType.value m)) = Ret true.
Proof. by destruct m. Qed.

(** [ContextMetadata.from_dict] undoes [ContextMetadata.to_dict]. *)
Lemma metadata_from_dict_to_dict (md : ContextMetadata.t) :
  ContextMetadata.from_dict (ContextMetadata.to_dict md) = Ret md.
Proof.
  destruct md as [ct src ver dims cty tags].
  unfold ContextMetadata.from_dict, ContextMetadata.to_dict. cbn.
  unfold as_optional, as_list, of_optional.
  destruct dims as [dims |], cty as [cty |]; cbn;
    rewrite ?as_int_list, ?as_str_list; cbn;
    rewrite ?as_int_list, ?as_str_list; reflexivity.
Qed.

(** *** [tolist] against indexing *)

Lemma rows_length {A} (n k : nat) (buf : list A) : length (Tolist.rows n k buf) = n.
Proof. revert buf. induction n as [|n IH]; intros buf; simpl; [done | by rewrite IH]. Qed.

Lemma rows_lookup {A} (n k i : nat) (buf : list A) :
  i < n -> Tolist.rows n k buf !! i = Some (take k (drop (i * k) buf)).
Proof.
  revert i buf. induction n as [|n IH]; intros i buf Hi; [lia |].
  destruct i as [|i]; simpl; [done |].
  rewrite IH by lia. by rewrite drop_drop.
Qed.

Lemma offset_lt (shp idx : list nat) (o : nat) :
  NdArray.offset shp idx = Some o -> o < NdArray.size_of shp.
Proof.
  revert idx o. induction shp as [|n shp IH]; intros [|i idx] o; simpl; try done.
  - intros [= <-]. lia.
  - destruct (decide (i < n)) as [Hi |]; [| done].
    destruct (NdArray.offset shp idx) as [o' |] eqn:E; [| done].
    intros [= <-]. specialize (IH idx o' E).
    unfold NdArray.size_of in *. nia.
Qed.

(** The nested list [tolist] builds holds, at every index of the array,
    the cell the array holds there. *)
Lemma nest_index (shp : list nat) (buf : list NdArray.scalar) (idx : list nat) :
  length buf = NdArray.size_of shp ->
  length idx = length shp ->
  PyVal.index (Tolist.nest shp buf) idx
  = Tolist.scalar_item <$> (NdArray.offset shp idx ≫= fun o => buf !! o).
Proof.
  revert buf idx. induction shp as [|n shp IH]; intros buf idx Hbuf Hidx.
  - destruct idx; [| done]. destruct buf as [|x [|]]; done.
  - destruct idx as [|i idx]; [done |]. simpl in Hidx. simpl.
    set (k := NdArray.size_of shp) in *.
    assert (Hlen : length buf = n * k) by exact Hbuf.
    rewrite list_lookup_fmap.
    destruct (decide (i < n)) as [Hi | Hi].
    + rewrite rows_lookup by done. simpl.
      rewrite IH; [| | lia].
      * destruct (NdArray.offset shp idx) as [o |] eqn:E; [| done]. simpl.
        apply offset_lt in E. fold k in E.
        rewrite lookup_take_lt by done. by rewrite lookup_drop.
      * rewrite length_take, length_drop. fold k. nia.
    + rewrite (lookup_ge_None_2 (Tolist.rows n k buf) i); [done |].
      rewrite rows_length. lia.
Qed.

End RoundTrip.

(** C5: [from_dict] of [to_dict] of a context returns a context with the
    same context_id, context_type, model_type and metadata (all six
    fields); its data is the data of the original when that is not a
    numpy array, and for an array it is the nested list that holds, at
    every index of the array, the number the array holds there. *)
Theorem from_dict_to_dict (c : ModelContext.t) :
  exists c',
    ModelContext.from_dict (ModelContext.to_dict c) = Ret c'
    /\ ModelContext.context_id c' = ModelContext.context_id c
    /\ ModelContext.context_type c' = ModelContext.context_type c
    /\ ModelContext.model_type c' = ModelContext.model_type c
    /\ ModelContext.metadata c' = ModelContext.metadata c
    /\ (PyVal.is_ndarray (ModelContext.data c) = false ->
        ModelContext.data c' = ModelContext.data c)
    /\ (forall a, ModelContext.data c = VNdarray a ->
        ModelContext.data c' = Tolist.tolist a
        /\ (NdArray.wf a ->
            forall idx, length idx = length (NdArray.shape a) ->
            PyVal.index (ModelContext.data c') idx
            = Tolist.scalar_item <$> NdArray.item a idx)).
Proof.
  exists (ModelContext.mk (ModelContext.context_id c) (ModelContext.context_type c)
            (ModelContext.data_serialized c) (ModelContext.metadata c)
            (ModelContext.model_type c)).
  split.
  - destruct c as [cid ct payload md mt].
    unfold ModelContext.from_dict, ModelContext.to_dict.
    cbn -[ContextType.of_value ModelType.of_value PyVal.truthy
          ContextMetadata.from_dict ContextMetadata.to_dict].
    rewrite RoundTrip.context_type_of_value.
    destruct mt as [mt |];
      cbn -[ContextType.of_value ModelType.of_value PyVal.truthy
            ContextMetadata.from_dict ContextMetadata.to_dict];
      rewrite ?RoundTrip.model_type_value_truthy;
      cbn -[ContextType.of_value ModelType.of_value PyVal.truthy
            ContextMetadata.from_dict ContextMetadata.to_dict];
      rewrite ?RoundTrip.model_type_of_value;
      cbn -[ContextType.of_value ModelType.of_value PyVal.truthy
            ContextMetadata.from_dict ContextMetadata.to_dict];
      by rewrite RoundTrip.metadata_from_dict_to_dict.
  - simpl. do 4 (split; [reflexivity |]).
    unfold ModelContext.data_serialized. split.
    + intros Hjson. by destruct (ModelContext.data c).
    + intros a Ha. rewrite Ha. split; [reflexivity |].
      intros Hwf idx Hidx. unfold Tolist.tolist, NdArray.item.
      rewrite RoundTrip.nest_index by done.
      by destruct (NdArray.offset (NdArray.shape a) idx).
Qed.

(** ** Listing the models *)

(** The dictionary of a manager keeps its keys apart through
    registration and removal. *)
Lemma manager_init_wf : PyDict.wf (ModelManager._models ModelManager.init).
Proof. apply PyDictFacts.wf_empty. Qed.

Lemma register_model_wf {Ext : Type} (self self' : ModelManager.t) (model : loc)
    (flag : bool) (w w' : World Ext) :
  PyDict.wf (ModelManager._models self) ->
  ModelManager.register_model self model w = (Ret (flag, self'), w') ->
  PyDict.wf (ModelManager._models self').
Proof.
  intros Hwf. unfold ModelManager.register_model. run_monad.
  destruct (PyDict.contains _ _); intros [= _ <- _]; [done |].
  by apply PyDictFacts.wf_set.
Qed.

Lemma unregister_model_wf (self : ModelManager.t) (model_id : string) :
  PyDict.wf (ModelManager._models self) ->
  PyDict.wf (ModelManager._models (ModelManager.unregister_model self model_id).2).
Proof.
  intros Hwf. unfold ModelManager.unregister_model.
  destruct (PyDict.contains _ _); simpl; [| done].
  by apply PyDictFacts.wf_del.
Qed.

(** C9, as it is stated, fails: [list_models] of the manager that holds
    model 0 returns the reference to info object 0, the object model 0
    itself holds; the model is READY, and once STOPPED is written to the
    status of the object returned, the status the manager reads for the
    model is STOPPED. *)
Lemma list_models_returns_live_infos :
  (ModelManager.list_models Demo.manager None (Demo.world ModelStatus.READY)).1
    = Ret [0]
  /\ ModelManager.get_model Demo.manager "default_language_model" = Some 0
  /\ AIModel.status_of (Demo.world ModelStatus.READY) 0 = ModelStatus.READY
  /\ AIModel.status_of
       (Store.set_info 0
          (ModelInfo.with_status ModelStatus.STOPPED
             (infos (Demo.world ModelStatus.READY) 0))
          (Demo.world ModelStatus.READY)) 0
     = ModelStatus.STOPPED
  /\ ModelStatus.STOPPED ≠ ModelStatus.READY.
Proof.
  split; [reflexivity |]. split; [reflexivity |]. split; [reflexivity |].
  split; [reflexivity | discriminate].
Qed.

(** C9, amended: [list_models] leaves the store as it is and returns
    references to the [ModelInfo] objects of registered models - with a
    model_type given, of exactly those whose model_type is the one given.
    The references are to the objects the models hold: what is written to
    a returned object is what the manager then reads for every model
    that holds it. *)
Theorem list_models_live_infos {Ext : Type} (self : ModelManager.t)
    (model_type : option ModelType.t) (w : World Ext) :
  PyDict.wf (ModelManager._models self) ->
  exists result,
    ModelManager.list_models self model_type w = (Ret result, w)
    /\ (forall i, i ∈ result <->
        exists k m,
          ModelManager.get_model self k = Some m
          /\ model_info (models w m) = i
          /\ (forall mt, model_type = Some mt ->
              ModelInfo.model_type (AIModel.info_of w m) = mt))
    /\ (forall i m info', i ∈ result -> model_info (models w m) = i ->
        AIModel.info_of (Store.set_info i info' w) m = info').
Proof.
  intros Hwf. eexists. split; [reflexivity |]. split.
  - intros i. rewrite list_elem_of_fmap. split.
    + intros (m & -> & Hm).
      assert (Hv : m ∈ PyDict.values (ModelManager._models self)
                   /\ forall mt, model_type = Some mt ->
                        ModelInfo.model_type (AIModel.info_of w m) = mt).
      { destruct model_type as [mt0 |].
        - apply list_elem_of_filter in Hm as [Hmt Hm]. split; [done |].
          by intros mt [= <-].
        - split; [done | discriminate]. }
      destruct Hv as [Hv Hmt].
      apply PyDictFacts.elem_of_values in Hv as [k Hk]; [| done].
      by exists k, m.
    + intros (k & m & Hk & <- & Hmt). exists m. split; [done |].
      assert (Hv : m ∈ PyDict.values (ModelManager._models self)).
      { apply PyDictFacts.elem_of_values; [done |]. by exists k. }
      destruct model_type as [mt0 |]; [| done].
      apply list_elem_of_filter. split; [by apply Hmt | done].
  - intros i m info' _ <-.
    unfold AIModel.info_of. simpl. apply fn_lookup_insert.
Qed.

(** ** The properties on the concrete store *)

Module OnDemo.
Import ModelStatus (INITIALIZING, READY, RUNNING, ERROR, STOPPED).

Lemma text_supported :
  ModelContext.context_type Demo.text_context
    ∈ ModelInfo.supported_context_types (AIModel.info_of (Demo.world READY) 0).
Proof. apply list_elem_of_here. Defined.

Lemma image_unsupported :
  ModelContext.context_type Demo.image_context
    ∉ ModelInfo.supported_context_types (AIModel.info_of (Demo.world READY) 0).
Proof. intros Hin. by apply list_elem_of_singleton in Hin. Defined.

Lemma initializing_not_ready : AIModel.status_of (Demo.world INITIALIZING) 0 ≠ READY.
Proof. discriminate. Defined.

(** The default language model, READY, is run on a text context and on a
    text context whose payload is None. *)
Lemma run_model_ready_supported_witness :
  (exists w',
     Demo.run_default Demo.text_context READY = (Ret (Some Demo.response), w')
     /\ AIModel.status_of w' 0 = READY
     /\ AIModel.last_run_time_of w' 0 = Demo.clock 1)
  /\ (exists w',
        Demo.run_default Demo.broken_context READY = (Ret None, w')
        /\ AIModel.status_of w' 0 = ERROR).
Proof.
  split.
  - exact (proj2 (@run_model_ready_supported _ Demo.methods Demo.manager
                    "default_language_model" 0 Demo.text_context (Demo.world READY)
                    eq_refl eq_refl text_supported)).
  - exact (proj2 (@run_model_ready_supported _ Demo.methods Demo.manager
                    "default_language_model" 0 Demo.broken_context (Demo.world READY)
                    eq_refl eq_refl text_supported) eq_refl).
Defined.

Lemma run_model_unsupported_witness :
  exists w',
    Demo.run_default Demo.image_context READY = (Ret None, w')
    /\ AIModel.status_of w' 0 = READY
    /\ w' = Store.add_log
              (Logging.mkLogRecord Logging.ERROR
                 "Model default_language_model does not support context type image"
                 None) (Demo.world READY).
Proof.
  exact (@run_model_unsupported _ Demo.methods Demo.manager "default_language_model"
           0 Demo.image_context (Demo.world READY) eq_refl eq_refl image_unsupported).
Defined.

Lemma run_model_not_ready_witness :
  exists w',
    Demo.run_default Demo.text_context INITIALIZING = (Ret None, w')
    /\ AIModel.status_of w' 0 = INITIALIZING
    /\ w' = Store.add_log
              (Logging.mkLogRecord Logging.ERROR
                 "Model default_language_model is not ready. Current status: initializing"
                 None) (Demo.world INITIALIZING).
Proof.
  exact (@run_model_not_ready _ Demo.methods Demo.manager "default_language_model"
           0 Demo.text_context (Demo.world INITIALIZING) eq_refl initializing_not_ready).
Defined.

(** The default language model is initialized, and an id the manager
    does not hold is asked for. *)
Lemma initialize_model_outcomes_witness :
  (exists w',
     @ModelManager.initialize_model _ Demo.methods Demo.manager
       "default_language_model" (Demo.world INITIALIZING) = (Ret true, w')
     /\ AIModel.status_of w' 0 = READY)
  /\ @ModelManager.initialize_model _ Demo.methods Demo.manager
       "vision" (Demo.world INITIALIZING)
     = (Ret false,
        Store.add_log
          (Logging.mkLogRecord Logging.ERROR "Model with ID vision not found." None)
          (Demo.world INITIALIZING)).
Proof.
  split.
  - exact (@initialize_model_outcomes _ Demo.methods Demo.manager
             "default_language_model" (Demo.world INITIALIZING)).
  - exact (@initialize_model_outcomes _ Demo.methods Demo.manager
             "vision" (Demo.world INITIALIZING)).
Defined.

(** The second model, whose id is not in the manager, is registered. *)
Lemma register_model_fresh_witness :
  ModelManager.get_model Demo.manager "second_language_model" = None
  /\ exists self' w',
       ModelManager.register_model Demo.manager 1 (Demo.world READY)
         = (Ret (true, self'), w')
       /\ ModelManager.get_model self' "second_language_model" = Some 1
       /\ (forall k, k ≠ "second_language_model" ->
           ModelManager.get_model self' k = ModelManager.get_model Demo.manager k)
       /\ w' = Demo.world READY
       /\ AIModel.status_of w' 1 = AIModel.status_of (Demo.world READY) 1.
Proof.
  split; [reflexivity |].
  exact (register_model_fresh Demo.manager 1 (Demo.world READY) eq_refl).
Defined.

(** A third model object carries the id of the second, which the
    manager holds. *)
Lemma register_model_duplicate_witness :
  ModelManager.get_model Demo.two_models "second_language_model" = Some 1
  /\ exists self' w',
       ModelManager.register_model Demo.two_models 2 (Demo.world READY)
         = (Ret (false, self'), w')
       /\ self' = Demo.two_models
       /\ ModelManager.get_model self' "second_language_model" = Some 1
       /\ infos w' = infos (Demo.world READY)
       /\ models w' = models (Demo.world READY)
       /\ log w' = [Logging.mkLogRecord Logging.WARNING
                      "Model with ID second_language_model already exists." None].
Proof.
  split; [reflexivity |].
  exact (register_model_duplicate Demo.two_models 1 2 (Demo.world READY) eq_refl).
Defined.

Lemma register_overwrites_witness :
  ModelContext.context_id Demo.text_context
    = ModelContext.context_id Demo.text_context_again
  /\ exists reg1 w1 reg2 w2,
       ContextRegistry.register ContextRegistry.init Demo.text_context
         (Demo.world READY) = (Ret reg1, w1)
       /\ ContextRegistry.register reg1 Demo.text_context_again w1 = (Ret reg2, w2)
       /\ ContextRegistry.get reg2 "ctx-1" = Some Demo.text_context_again
       /\ (forall k c, ContextRegistry.get reg2 k = Some c ->
           (k = "ctx-1" /\ c = Demo.text_context_again)
           \/ (k ≠ "ctx-1" /\ ContextRegistry.get ContextRegistry.init k = Some c))
       /\ log w2 = log w1 ++ [Logging.mkLogRecord Logging.WARNING
                               "Context with ID ctx-1 already exists. Overwriting."
                               None].
Proof.
  split; [reflexivity |].
  exact (register_overwrites ContextRegistry.init Demo.text_context
           Demo.text_context_again (Demo.world READY) eq_refl).
Defined.

Lemma two_models_wf : PyDict.wf (ModelManager._models Demo.two_models).
Proof.
  apply list.NoDup_cons. split.
  - intros Hin. apply list_elem_of_singleton in Hin. discriminate.
  - apply list.NoDup_singleton.
Defined.

Lemma list_models_live_infos_witness :
  exists result,
    ModelManager.list_models Demo.two_models (Some ModelType.LANGUAGE) (Demo.world READY)
      = (Ret result, Demo.world READY)
    /\ (forall i, i ∈ result <->
        exists k m,
          ModelManager.get_model Demo.two_models k = Some m
          /\ model_info (models (Demo.world READY) m) = i
          /\ (forall mt, Some ModelType.LANGUAGE = Some mt ->
              ModelInfo.model_type (AIModel.info_of (Demo.world READY) m) = mt))
    /\ (forall i m info', i ∈ result -> model_info (models (Demo.world READY) m) = i ->
        AIModel.info_of (Store.set_info i info' (Demo.world READY)) m = info').
Proof.
  exact (list_models_live_infos Demo.two_models (Some ModelType.LANGUAGE)
           (Demo.world READY) two_models_wf).
Defined.

(** [run] raises on the context whose payload is None: the timestamp of
    model 0 stays the 0.0 of its construction. *)
Lemma last_run_time_kept_on_failure_witness :
  AIModel.last_run_time_of (Demo.run_default Demo.broken_context READY).2 0 = 0%float.
Proof.
  exact (proj2 (proj2 (proj2
           (@last_run_time_kept_on_failure _ Demo.methods Demo.manager
              "default_language_model" Demo.broken_context (Demo.world READY) 0)))
           0 _ _ eq_refl eq_refl text_supported eq_refl eq_refl).
Defined.

(** The round trip of the context that carries the 2 x 3 array. *)
Lemma from_dict_to_dict_witness :
  exists c',
    ModelContext.from_dict (ModelContext.to_dict Demo.numeric_context) = Ret c'
    /\ ModelContext.metadata c' = ModelContext.metadata Demo.numeric_context
    /\ ModelContext.data c'
       = VList [VList [VInt 1; VInt 2; VInt 3]; VList [VInt 4; VInt 5; VInt 6]]%Z
    /\ PyVal.index (ModelContext.data c') [1; 2] = Some (VInt 6).
Proof.
  destruct (from_dict_to_dict Demo.numeric_context)
    as (c' & Hrt & _ & _ & _ & Hmd & _ & Harr).
  destruct (Harr Demo.matrix eq_refl) as [Hdata Hidx].
  exists c'. split; [exact Hrt |]. split; [exact Hmd |]. split; [exact Hdata |].
  exact (Hidx eq_refl [1; 2] eq_refl).
Defined.

End OnDemo.

(** * Further properties *)

(** ** More on dictionaries *)

Module PyDictMoreFacts.
Section PyDictMoreFacts.
Context {V : Type}.
Implicit Types (d : PyDict.t V) (k : string) (v : V).

Lemma values_set_new k v d :
  PyDict.get k d = None -> PyDict.values (PyDict.set k v d) = PyDict.values d ++ [v].
Proof.
  induction d as [|[k' v'] d IH]; simpl; [done |].
  destruct (String.eqb k k') eqn:E; [discriminate |].
  intros Hnone. unfold PyDict.values in *. rewrite !fmap_cons. simpl.
  f_equal. by apply IH.
Qed.

(** Assignment to a key the dictionary holds replaces the entry where it
    stands. *)
Lemma set_in_place k v old d :
  PyDict.get k d = Some old ->
  exists before after,
    d = before ++ (k, old) :: after
    /\ PyDict.get k before = None
    /\ PyDict.set k v d = before ++ (k, v) :: after.
Proof.
  induction d as [|[k' v'] d IH]; simpl; [discriminate |].
  destruct (String.eqb k k') eqn:E.
  - apply String.eqb_eq in E. subst k'. intros [= ->].
    by exists [], d.
  - intros Hget. destruct (IH Hget) as (before & after & -> & Hb & Hset).
    exists ((k', v') :: before), after. simpl. rewrite E, Hset. done.
Qed.

Lemma get_del_ne k k' d : k ≠ k' -> PyDict.get k' (PyDict.del k d) = PyDict.get k' d.
Proof.
  intros Hne. induction d as [|[k0 v0] d IH]; simpl; [done |].
  destruct (String.eqb k k0) eqn:E; simpl.
  - apply String.eqb_eq in E. subst k0.
    by rewrite PyDictFacts.eqb_false_of_ne by congruence.
  - by destruct (String.eqb k' k0).
Qed.

Lemma get_del_eq k d : PyDict.wf d -> PyDict.get k (PyDict.del k d) = None.
Proof.
  unfold PyDict.wf. induction d as [|[k0 v0] d IH]; simpl; [done |].
  intros [Hk0 Hwf]%list.NoDup_cons.
  destruct (String.eqb k k0) eqn:E; simpl.
  - apply String.eqb_eq in E. subst k0. by apply PyDictFacts.get_None_keys.
  - rewrite E. by apply IH.
Qed.

Lemma del_absent k d : PyDict.get k d = None -> PyDict.del k d = d.
Proof.
  induction d as [|[k0 v0] d IH]; simpl; [done |].
  destruct (String.eqb k k0); [discriminate |].
  intros Hnone. f_equal. by apply IH.
Qed.

End PyDictMoreFacts.
End PyDictMoreFacts.

(** ** More on the context registry *)

(** X1: a context registered under an id the registry does not hold is
    returned by [get] of its id, leaves every other id as it was, comes
    last in the listing, and nothing is logged. *)
Theorem registry_register_fresh {Ext : Type} (self : ContextRegistry.t)
    (context : ModelContext.t) (w : World Ext) :
  ContextRegistry.get self (ModelContext.context_id context) = None ->
  exists reg',
    ContextRegistry.register self context w = (Ret reg', w)
    /\ ContextRegistry.get reg' (ModelContext.context_id context) = Some context
    /\ (forall k, k ≠ ModelContext.context_id context ->
        ContextRegistry.get reg' k = ContextRegistry.get self k)
    /\ ContextRegistry.list reg' None None
       = ContextRegistry.list self None None ++ [context].
Proof.
  intros Hfresh. unfold ContextRegistry.get in *.
  eexists. unfold ContextRegistry.register. run_monad.
  rewrite (proj2 (PyDictFacts.contains_false _ _) Hfresh). simpl.
  split; [reflexivity |]. simpl.
  split; [apply PyDictFacts.get_set_eq |].
  split.
  - intros k Hk. apply PyDictFacts.get_set_ne. congruence.
  - unfold ContextRegistry.list. simpl. by apply PyDictMoreFacts.values_set_new.
Qed.

(** X2: registering under an id the registry holds replaces the old
    context where it stands in the listing: the contexts before and
    after it are the same, and the listing is as long as it was. *)
Theorem registry_register_in_place {Ext : Type} (self : ContextRegistry.t)
    (old context : ModelContext.t) (w : World Ext) :
  ContextRegistry.get self (ModelContext.context_id context) = Some old ->
  exists reg' w' before after,
    ContextRegistry.register self context w = (Ret reg', w')
    /\ ContextRegistry.list self None None = before ++ old :: after
    /\ ContextRegistry.list reg' None None = before ++ context :: after.
Proof.
  intros Hold. unfold ContextRegistry.get in Hold.
  destruct (PyDictMoreFacts.set_in_place _ context _ _ Hold)
    as (before & after & Hd & _ & Hset).
  assert (Hc : PyDict.contains (ModelContext.context_id context)
                 (ContextRegistry._contexts self) = true).
  { apply PyDictFacts.contains_true. by exists old. }
  eexists _, _, (PyDict.values before), (PyDict.values after).
  unfold ContextRegistry.register. run_monad. rewrite Hc. simpl.
  split; [reflexivity |].
  unfold ContextRegistry.list. simpl. rewrite Hset, Hd.
  unfold PyDict.values. by rewrite !fmap_app, !fmap_cons.
Qed.

(** X3: [delete] tells whether the id was held; afterwards [get] of the
    id returns None and every other id is as it was; a registry that did
    not hold the id is handed back as it is, and deleting again returns
    false. *)
Theorem registry_delete (self : ContextRegistry.t) (context_id : string) :
  PyDict.wf (ContextRegistry._contexts self) ->
  let removed := (ContextRegistry.delete self context_id).1 in
  let reg' := (ContextRegistry.delete self context_id).2 in
  (removed = true <-> exists c, ContextRegistry.get self context_id = Some c)
  /\ ContextRegistry.get reg' context_id = None
  /\ (forall k, k ≠ context_id -> ContextRegistry.get reg' k = ContextRegistry.get self k)
  /\ (removed = false -> reg' = self)
  /\ ContextRegistry.delete reg' context_id = (false, reg').
Proof.
  intros Hwf removed reg'. subst removed reg'.
  unfold ContextRegistry.delete, ContextRegistry.get.
  destruct (PyDict.contains context_id (ContextRegistry._contexts self)) eqn:E; simpl.
  - assert (Hgone : PyDict.get context_id
                      (PyDict.del context_id (ContextRegistry._contexts self)) = None)
      by by apply PyDictMoreFacts.get_del_eq.
    split; [split; [intros _; by apply PyDictFacts.contains_true | done] |].
    split; [done |].
    split; [intros k Hk; apply PyDictMoreFacts.get_del_ne; congruence |].
    split; [done |].
    by rewrite (proj2 (PyDictFacts.contains_false _ _) Hgone).
  - apply PyDictFacts.contains_false in E as Hnone.
    split; [split; [done | intros [c Hc]; congruence] |].
    split; [done |]. split; [done |]. split; [done |]. by rewrite E.
Qed.

(** X4: [list] returns exactly the registered contexts that pass every
    filter given; a filter left out passes every context. *)
Theorem registry_list_filters (self : ContextRegistry.t)
    (context_type : option ContextType.t) (model_type : option ModelType.t)
    (c : ModelContext.t) :
  PyDict.wf (ContextRegistry._contexts self) ->
  c ∈ ContextRegistry.list self context_type model_type
  <-> (exists k, ContextRegistry.get self k = Some c)
      /\ (forall ct, context_type = Some ct -> ModelContext.context_type c = ct)
      /\ (forall mt, model_type = Some mt -> ModelContext.model_type c = Some mt).
Proof.
  intros Hwf. unfold ContextRegistry.list, ContextRegistry.get.
  rewrite <- (PyDictFacts.elem_of_values c _ Hwf).
  destruct context_type as [ct |], model_type as [mt |];
    rewrite ?list_elem_of_filter; split.
  - intros (Hmt & Hct & Hin). repeat split; [done | |]; by intros ? [= <-].
  - intros (Hin & Hct & Hmt). split; [by apply Hmt |]. split; [by apply Hct | done].
  - intros (Hct & Hin). repeat split; [done | | done]. by intros ? [= <-].
  - intros (Hin & Hct & _). split; [by apply Hct | done].
  - intros (Hmt & Hin). repeat split; [done | done |]. by intros ? [= <-].
  - intros (Hin & _ & Hmt). split; [by apply Hmt | done].
  - intros Hin. repeat split; done.
  - by intros (Hin & _ & _).
Qed.

(** ** More on the dictionary forms *)

Module EnumFacts.




Lemma status_of_value_value (st : ModelStatus.t) :
  ModelInfoDict.status_of_value (VStr (ModelStatus.value st)) = Ret st.
Proof. by destruct st. Qed.

Lemma context_type_of_value_unknown (s : string) :
  (forall c, ContextType.value c ≠ s) ->
  ContextType.of_value (VStr s)
  = Raise (mkExc ValueError ("'" +:+ s +:+ "' is not a valid ContextType")).
Proof.
  intros Hnot. unfold ContextType.of_value.
  destruct (List.find _ _) as [c |] eqn:E; [| done].
  apply List.find_some in E as [_ E]. apply String.eqb_eq in E.
  by destruct (Hnot c).
Qed.

End EnumFacts.


(** X6: [ContextMetadata.from_dict] raises [KeyError] for the first of
    creation_time, source and version that the dictionary lacks. *)
Theorem metadata_from_dict_missing_key (data : PyDict.t PyVal.t) :
  (PyDict.get "creation_time" data = None ->
   ContextMetadata.from_dict data = Raise (mkExc KeyError "'creation_time'"))
  /\ (is_Some (PyDict.get "creation_time" data) ->
      PyDict.get "source" data = None ->
      ContextMetadata.from_dict data = Raise (mkExc KeyError "'source'"))
  /\ (is_Some (PyDict.get "creation_time" data) ->
      is_Some (PyDict.get "source" data) ->
      PyDict.get "version" data = None ->
      ContextMetadata.from_dict data = Raise (mkExc KeyError "'version'")).
Proof.
  unfold ContextMetadata.from_dict, DictAccess.getitem.
  split; [| split].
  - by intros ->.
  - intros [v ->] ->. reflexivity.
  - intros [v ->] [v' ->] ->. reflexivity.
Qed.


(** X8: [ModelContext.from_dict] raises [KeyError] when the dictionary
    has no context_type, and [ValueError] when its context_type is a
    string that is the tag of no member. *)
Theorem context_from_dict_bad_context_type (data : PyDict.t PyVal.t) :
  (PyDict.get "context_type" data = None ->
   ModelContext.from_dict data = Raise (mkExc KeyError "'context_type'"))
  /\ (forall s, PyDict.get "context_type" data = Some (VStr s) ->
      (forall c, ContextType.value c ≠ s) ->
      ModelContext.from_dict data
      = Raise (mkExc ValueError ("'" +:+ s +:+ "' is not a valid ContextType"))).
Proof.
  unfold ModelContext.from_dict, DictAccess.getitem. split.
  - by intros ->.
  - intros s -> Hnot.
    cbn -[ContextType.of_value].
    by rewrite (EnumFacts.context_type_of_value_unknown s Hnot).
Qed.


(** ** The dictionary form of [ModelInfo] *)

Lemma context_types_of_values (l : list ContextType.t) :
  rmapM ContextType.of_value ((fun ct => VStr (ContextType.value ct)) <$> l) = Ret l.
Proof.
  induction l as [|c l IH]; [done |].
  rewrite fmap_cons. cbn [rmapM].
  by rewrite RoundTrip.context_type_of_value, IH.
Qed.

(** X10: [ModelInfo.from_dict] of [ModelInfo.to_dict] returns the info
    with every field as it was, except that metadata None comes back as
    the empty dictionary. *)
Theorem model_info_from_dict_to_dict (info : ModelInfo.t) :
  ModelInfoDict.from_dict (ModelInfoDict.to_dict info)
  = Ret (ModelInfo.mk (ModelInfo.model_id info) (ModelInfo.name info)
           (ModelInfo.version info) (ModelInfo.model_type info)
           (ModelInfo.description info) (ModelInfo.supported_context_types info)
           (ModelInfo.status info)
           (Some (ModelInfoDict.metadata_or_empty (ModelInfo.metadata info))))
  /\ (ModelInfo.metadata info = None ->
      ModelInfoDict.from_dict (ModelInfoDict.to_dict info) ≠ Ret info)
  /\ (forall kvs, ModelInfo.metadata info = Some kvs ->
      ModelInfoDict.from_dict (ModelInfoDict.to_dict info) = Ret info).
Proof.
  assert (Hrt : ModelInfoDict.from_dict (ModelInfoDict.to_dict info)
                = Ret (ModelInfo.mk (ModelInfo.model_id info) (ModelInfo.name info)
                         (ModelInfo.version info) (ModelInfo.model_type info)
                         (ModelInfo.description info)
                         (ModelInfo.supported_context_types info)
                         (ModelInfo.status info)
                         (Some (ModelInfoDict.metadata_or_empty
                                  (ModelInfo.metadata info))))).
  { destruct info as [mid nm ver mt descr sup st md].
    unfold ModelInfoDict.from_dict, ModelInfoDict.to_dict.
    cbn -[ContextType.of_value ModelType.of_value ModelInfoDict.status_of_value
          rmapM ModelInfoDict.metadata_or_empty].
    rewrite RoundTrip.model_type_of_value.
    cbn -[ContextType.of_value ModelType.of_value ModelInfoDict.status_of_value
          rmapM ModelInfoDict.metadata_or_empty].
    rewrite context_types_of_values.
    cbn -[ContextType.of_value ModelType.of_value ModelInfoDict.status_of_value
          rmapM ModelInfoDict.metadata_or_empty].
    by rewrite EnumFacts.status_of_value_value. }
  split; [exact Hrt |]. split.
  - intros Hnone. rewrite Hrt. destruct info. simpl in *. subst. discriminate.
  - intros kvs Hsome. rewrite Hrt. destruct info. simpl in *. subst.
    by destruct kvs.
Qed.

(** ** More on the manager *)




(** X11: [unregister_model] tells whether the id was held; afterwards
    [get_model] of the id returns None and every other id is as it was; a
    manager that did not hold the id is handed back as it is. *)
Theorem unregister_model_removes (self : ModelManager.t) (model_id : string) :
  PyDict.wf (ModelManager._models self) ->
  let removed := (ModelManager.unregister_model self model_id).1 in
  let self' := (ModelManager.unregister_model self model_id).2 in
  (removed = true <-> exists m, ModelManager.get_model self model_id = Some m)
  /\ ModelManager.get_model self' model_id = None
  /\ (forall k, k ≠ model_id ->
      ModelManager.get_model self' k = ModelManager.get_model self k)
  /\ (removed = false -> self' = self).
Proof.
  intros Hwf removed self'. subst removed self'.
  unfold ModelManager.unregister_model, ModelManager.get_model.
  destruct (PyDict.contains model_id (ModelManager._models self)) eqn:E; simpl.
  - split; [split; [intros _; by apply PyDictFacts.contains_true | done] |].
    split; [by apply PyDictMoreFacts.get_del_eq |].
    split; [| done].
    intros k Hk. apply PyDictMoreFacts.get_del_ne. congruence.
  - apply PyDictFacts.contains_false in E as Hnone.
    split; [split; [done | intros [m Hm]; congruence] |].
    split; [done |]. split; done.
Qed.

(** X12: once a model is unregistered, [run_model] and
    [initialize_model] of its id return None and false whatever the
    model is: the store is the one before with one error record, so
    neither [run] nor [initialize] is called and the model object keeps
    its status. *)
Theorem unregistered_model_is_unknown {Ext : Type} `{AIModelMethods Ext}
    (self : ModelManager.t) (model_id : string) (context : ModelContext.t)
    (w : World Ext) :
  PyDict.wf (ModelManager._models self) ->
  let self' := (ModelManager.unregister_model self model_id).2 in
  let not_found :=
    Store.add_log
      (Logging.mkLogRecord Logging.ERROR
         ("Model with ID " +:+ model_id +:+ " not found.") None) w in
  ModelManager.run_model self' model_id context w = (Ret None, not_found)
  /\ ModelManager.initialize_model self' model_id w = (Ret false, not_found).
Proof.
  intros Hwf self' not_found.
  assert (Hgone : PyDict.get model_id (ModelManager._models self') = None).
  { subst self'. unfold ModelManager.unregister_model.
    destruct (PyDict.contains model_id (ModelManager._models self)) eqn:E; simpl.
    - by apply PyDictMoreFacts.get_del_eq.
    - by apply PyDictFacts.contains_false. }
  unfold ModelManager.run_model, ModelManager.initialize_model.
  by rewrite Hgone.
Qed.

(** X13: models are listed in the order of their registration: after a
    model with a new id is registered, [list_models] without filter
    returns what it returned before, followed by the info of the new
    model. *)
Theorem register_model_listed_last {Ext : Type} (self : ModelManager.t) (model : loc)
    (w : World Ext) :
  ModelManager.get_model self (ModelInfo.model_id (AIModel.info_of w model)) = None ->
  exists self' listed,
    ModelManager.register_model self model w = (Ret (true, self'), w)
    /\ ModelManager.list_models self None w = (Ret listed, w)
    /\ ModelManager.list_models self' None w
       = (Ret (listed ++ [model_info (models w model)]), w).
Proof.
  intros Hfresh. unfold ModelManager.get_model in Hfresh.
  eexists _, _. unfold ModelManager.register_model, ModelManager.list_models.
  run_monad.
  rewrite (proj2 (PyDictFacts.contains_false _ _) Hfresh).
  split; [reflexivity |]. split; [reflexivity |]. simpl.
  rewrite (PyDictMoreFacts.values_set_new _ _ _ Hfresh).
  by rewrite fmap_app.
Qed.

(** X14: an id that was unregistered can be registered again:
    [register_model] of a model that carries it returns true, and
    [get_model] of the id returns that model. *)
Theorem register_after_unregister {Ext : Type} (self : ModelManager.t) (model : loc)
    (w : World Ext) :
  PyDict.wf (ModelManager._models self) ->
  let model_id := ModelInfo.model_id (AIModel.info_of w model) in
  let self' := (ModelManager.unregister_model self model_id).2 in
  exists self'',
    ModelManager.register_model self' model w = (Ret (true, self''), w)
    /\ ModelManager.get_model self'' model_id = Some model.
Proof.
  intros Hwf model_id self'.
  assert (Hgone : PyDict.get model_id (ModelManager._models self') = None).
  { subst self'. unfold ModelManager.unregister_model.
    destruct (PyDict.contains model_id (ModelManager._models self)) eqn:E; simpl.
    - by apply PyDictMoreFacts.get_del_eq.
    - by apply PyDictFacts.contains_false. }
  eexists. unfold ModelManager.register_model, ModelManager.get_model. run_monad.
  fold model_id. rewrite (proj2 (PyDictFacts.contains_false _ _) Hgone).
  split; [reflexivity |]. simpl. apply PyDictFacts.get_set_eq.
Qed.

(** X15: what [run] raises that is not an [Exception] leaves
    [run_model] as it is, with the store as [run] left it: the status is
    not reset.  When [run] left the status at RUNNING, the next
    [run_model] of the model is turned down as not ready. *)
Theorem run_model_lets_base_exceptions_through {Ext : Type} `{AIModelMethods Ext}
    (self : ModelManager.t) (model_id : string) (m : loc)
    (context next : ModelContext.t) (w after : World Ext) (e : PyExc) :
  ModelManager.get_model self model_id = Some m ->
  AIModel.status_of w m = ModelStatus.READY ->
  ModelContext.context_type context
    ∈ ModelInfo.supported_context_types (AIModel.info_of w m) ->
  run m context (exec (AIModel.set_status m ModelStatus.RUNNING) w) = (Raise e, after) ->
  is_Exception e = false ->
  ModelManager.run_model self model_id context w = (Raise e, after)
  /\ (AIModel.status_of after m = ModelStatus.RUNNING ->
      ModelManager.run_model self model_id next after
      = (Ret None,
         Store.add_log
           (Logging.mkLogRecord Logging.ERROR
              ("Model " +:+ model_id +:+ " is not ready. Current status: running")
              None) after)).
Proof.
  intros Hreg Hst Hsup Hraise Hbase. split.
  - rewrite (run_model_guarded self model_id m context w Hreg Hst Hsup).
    by rewrite Hraise, Hbase.
  - intros Hrunning.
    rewrite (run_model_status_guard self model_id m next after Hreg).
    + by rewrite Hrunning.
    + by rewrite Hrunning.
Qed.

(** X16: ERROR is not left by [run_model]: after a call in which [run]
    raised an [Exception], a further [run_model] of the model returns
    None for every context and leaves the store as it is but for one
    error record; [run] is not called again. *)
Theorem run_model_error_is_sticky {Ext : Type} `{AIModelMethods Ext}
    (self : ModelManager.t) (model_id : string) (m : loc)
    (context next : ModelContext.t) (w after : World Ext) (e : PyExc) :
  ModelManager.get_model self model_id = Some m ->
  AIModel.status_of w m = ModelStatus.READY ->
  ModelContext.context_type context
    ∈ ModelInfo.supported_context_types (AIModel.info_of w m) ->
  run m context (exec (AIModel.set_status m ModelStatus.RUNNING) w) = (Raise e, after) ->
  is_Exception e = true ->
  let failed := exec (ModelManager.run_model self model_id context) w in
  AIModel.status_of failed m = ModelStatus.ERROR
  /\ ModelManager.run_model self model_id next failed
     = (Ret None,
        Store.add_log
          (Logging.mkLogRecord Logging.ERROR
             ("Model " +:+ model_id +:+ " is not ready. Current status: error")
             None) failed).
Proof.
  intros Hreg Hst Hsup Hraise Hexc failed.
  assert (Herr : AIModel.status_of failed m = ModelStatus.ERROR).
  { subst failed. unfold exec at 1.
    rewrite (run_model_guarded self model_id m context w Hreg Hst Hsup).
    rewrite Hraise, Hexc. apply status_of_set_status. }
  split; [exact Herr |].
  rewrite (run_model_status_guard self model_id m next failed Hreg).
  - by rewrite Herr.
  - by rewrite Herr.
Qed.

(** X17: a call of [run_model] that returns never leaves the model
    RUNNING: if the status of the registered model was not RUNNING
    before, it is not RUNNING after, whatever [run] did. *)
Theorem run_model_returns_not_running {Ext : Type} `{AIModelMethods Ext}
    (self : ModelManager.t) (model_id : string) (m : loc)
    (context : ModelContext.t) (w w' : World Ext)
    (result : option ModelContext.t) :
  ModelManager.get_model self model_id = Some m ->
  AIModel.status_of w m ≠ ModelStatus.RUNNING ->
  ModelManager.run_model self model_id context w = (Ret result, w') ->
  AIModel.status_of w' m ≠ ModelStatus.RUNNING.
Proof.
  intros Hreg Hnot Hrun.
  destruct (decide (AIModel.status_of w m = ModelStatus.READY)) as [Hst | Hst].
  - destruct (decide (ModelContext.context_type context
                      ∈ ModelInfo.supported_context_types (AIModel.info_of w m)))
      as [Hsup | Hsup].
    + rewrite (run_model_guarded self model_id m context w Hreg Hst Hsup) in Hrun.
      destruct (run m context _) as [[out | e] after].
      * injection Hrun as _ <-.
        assert (Hready : AIModel.status_of
                           (exec (AIModel.update_last_run_time m)
                              (exec (AIModel.set_status m ModelStatus.READY) after)) m
                         = ModelStatus.READY).
        { unfold exec, AIModel.status_of, AIModel.info_of. run_monad.
          rewrite fn_lookup_insert. simpl. by rewrite fn_lookup_insert. }
        by rewrite Hready.
      * destruct (is_Exception e); [| discriminate].
        injection Hrun as _ <-. by rewrite status_of_set_status.
    + rewrite (run_model_type_guard self model_id m context w Hreg Hst Hsup) in Hrun.
      by injection Hrun as _ <-.
  - rewrite (run_model_status_guard self model_id m context w Hreg Hst) in Hrun.
    by injection Hrun as _ <-.
Qed.

(** X18: [initialize_model] opens the way for [run_model]: when
    [initialize] returns true the model is READY afterwards, and a
    [run_model] with a context type the model then supports is not
    turned down but calls [run], in the store where the status is
    RUNNING. *)
Theorem initialize_then_run {Ext : Type} `{AIModelMethods Ext}
    (self : ModelManager.t) (model_id : string) (m : loc)
    (context : ModelContext.t) (w w0 : World Ext) :
  ModelManager.get_model self model_id = Some m ->
  initialize m w = (Ret true, w0) ->
  let ready := exec (ModelManager.initialize_model self model_id) w in
  ModelContext.context_type context
    ∈ ModelInfo.supported_context_types (AIModel.info_of ready m) ->
  ModelManager.initialize_model self model_id w = (Ret true, ready)
  /\ AIModel.status_of ready m = ModelStatus.READY
  /\ ModelManager.run_model self model_id context ready
     = match run m context (exec (AIModel.set_status m ModelStatus.RUNNING) ready) with
       | (Ret result, after) =>
           (Ret (Some result),
            exec (AIModel.update_last_run_time m)
              (exec (AIModel.set_status m ModelStatus.READY) after))
       | (Raise e, after) =>
           if is_Exception e then
             (Ret None,
              exec (AIModel.set_status m ModelStatus.ERROR)
                (Store.add_log
                   (Logging.mkLogRecord Logging.ERROR
                      ("Error running model " +:+ model_id +:+ ": " +:+ exc_str e)
                      (Some e)) after))
           else (Raise e, after)
       end.
Proof.
  intros Hreg Hinit ready Hsup.
  assert (Heq : ModelManager.initialize_model self model_id w
                = (Ret true, exec (AIModel.set_status m ModelStatus.READY) w0)).
  { rewrite (initialize_model_registered self model_id m w Hreg). by rewrite Hinit. }
  assert (Hready : ready = exec (AIModel.set_status m ModelStatus.READY) w0).
  { subst ready. unfold exec at 1. by rewrite Heq. }
  assert (Hst : AIModel.status_of ready m = ModelStatus.READY).
  { rewrite Hready. apply status_of_set_status. }
  split; [by rewrite Hready |]. split; [exact Hst |].
  by apply run_model_guarded.
Qed.

(** ** The language model *)

#[local] Existing Instance LanguageModel.methods.


Lemma language_model_run_other_type `{LanguageModel.Externals} (self : loc)
    (context : ModelContext.t) (w : World LanguageModel.attrs_t) :
  ModelContext.context_type context ≠ ContextType.TEXT ->
  LanguageModel.run self context w
  = (Raise (mkExc ValueError
              ("Unsupported context type: "
               +:+ ContextType.value (ModelContext.context_type context))), w).
Proof.
  intros Hother. unfold LanguageModel.run.
  by rewrite bool_decide_eq_false_2.
Qed.


(** X20: a language model whose info lists a context type other than
    TEXT passes the guard of the manager for it, and fails in its own
    check: [run_model] returns None, the status is ERROR, the record
    logged names the context type, and the last-run timestamp stays. *)
Theorem language_model_refuses_other_types `{LanguageModel.Externals}
    (self : ModelManager.t) (model_id : string) (m : loc)
    (context : ModelContext.t) (w : World LanguageModel.attrs_t) :
  ModelManager.get_model self model_id = Some m ->
  AIModel.status_of w m = ModelStatus.READY ->
  ModelContext.context_type context
    ∈ ModelInfo.supported_context_types (AIModel.info_of w m) ->
  ModelContext.context_type context ≠ ContextType.TEXT ->
  exists w',
    ModelManager.run_model self model_id context w = (Ret None, w')
    /\ AIModel.status_of w' m = ModelStatus.ERROR
    /\ log w' = log w ++
         [Logging.mkLogRecord Logging.ERROR
            ("Error running model " +:+ model_id +:+ ": Unsupported context type: "
             +:+ ContextType.value (ModelContext.context_type context))
            (Some (mkExc ValueError
                     ("Unsupported context type: "
                      +:+ ContextType.value (ModelContext.context_type context))))]
    /\ AIModel.last_run_time_of w' m = AIModel.last_run_time_of w m.
Proof.
  intros Hreg Hst Hsup Hother. eexists.
  rewrite (run_model_guarded self model_id m context w Hreg Hst Hsup).
  change (run m context) with (LanguageModel.run m context).
  rewrite (language_model_run_other_type m context _ Hother). simpl.
  split; [reflexivity |].
  split; [apply status_of_set_status |].
  split; reflexivity.
Qed.

(** X21: [LanguageModel.initialize] raises no [Exception]: without
    transformers it returns true, and with transformers it returns true
    exactly when the tokenizer and the model are loaded and the model is
    moved to the device, and false when one of the three raises an
    [Exception]. *)
Theorem language_model_initialize_outcomes `{LanguageModel.Externals} (self : loc)
    (w : World LanguageModel.attrs_t) :
  let name := LanguageModel.model_name (attrs (models w self)) in
  let dev := LanguageModel.device (attrs (models w self)) in
  (forall e w', LanguageModel.initialize self w = (Raise e, w') ->
                is_Exception e = false)
  /\ (LanguageModel.TRANSFORMERS_AVAILABLE = false ->
      (LanguageModel.initialize self w).1 = Ret true)
  /\ (LanguageModel.TRANSFORMERS_AVAILABLE = true ->
      ((LanguageModel.initialize self w).1 = Ret true
       <-> exists tok mdl,
             LanguageModel.tokenizer_from_pretrained name = Ret tok
             /\ LanguageModel.model_from_pretrained name = Ret mdl
             /\ LanguageModel.model_to mdl dev = Ret tt)).
Proof.
  intros name dev. unfold LanguageModel.initialize.
  destruct LanguageModel.TRANSFORMERS_AVAILABLE; simpl.
  - unfold LanguageModel.set_tokenizer, LanguageModel.set_model.
    run_monad. fold name.
    destruct (LanguageModel.tokenizer_from_pretrained name) as [tok | e1] eqn:E1;
      simpl.
    + destruct (LanguageModel.model_from_pretrained name) as [mdl | e2] eqn:E2;
        simpl.
      * rewrite !fn_lookup_insert. simpl. fold dev.
        destruct (LanguageModel.model_to mdl dev) as [[] | e3] eqn:E3; simpl.
        -- split; [discriminate |]. split; [done |]. intros _.
           split; [by eauto | done].
        -- destruct (is_Exception e3) eqn:X3; simpl.
           ++ split; [discriminate |]. split; [done |]. intros _.
              split; [discriminate |].
              intros (tok' & mdl' & _ & [= <-] & Hto). congruence.
           ++ split; [intros e w' [= <- _]; done |]. split; [done |]. intros _.
              split; [discriminate |].
              intros (tok' & mdl' & _ & [= <-] & Hto). congruence.
      * destruct (is_Exception e2) eqn:X2; simpl.
        -- split; [discriminate |]. split; [done |]. intros _.
           split; [discriminate | intros (? & ? & _ & ? & _); discriminate].
        -- split; [intros e w' [= <- _]; done |]. split; [done |]. intros _.
           split; [discriminate | intros (? & ? & _ & ? & _); discriminate].
    + destruct (is_Exception e1) eqn:X1; simpl.
      * split; [discriminate |]. split; [done |]. intros _.
        split; [discriminate | intros (? & ? & ? & _); discriminate].
      * split; [intros e w' [= <- _]; done |]. split; [done |]. intros _.
        split; [discriminate | intros (? & ? & ? & _); discriminate].
  - run_monad. split; [discriminate |]. split; [done | discriminate].
Qed.


(** ** Text generation *)

Lemma mbind_ret {Ext A B : Type} (c : M Ext A) (k : A -> M Ext B) (a : A)
    (w w' : World Ext) :
  c w = (Ret a, w') -> mbind c k w = k a w'.
Proof. intros Hc. unfold mbind. by rewrite Hc. Qed.

(** What [ContextRegistry.register] computes. *)
Lemma registry_register_eq {Ext : Type} (self : ContextRegistry.t)
    (context : ModelContext.t) (w : World Ext) :
  ContextRegistry.register self context w
  = (Ret (ContextRegistry.mk
            (PyDict.set (ModelContext.context_id context) context
               (ContextRegistry._contexts self))),
     if PyDict.contains (ModelContext.context_id context) (ContextRegistry._contexts self)
     then Store.add_log
            (Logging.mkLogRecord Logging.WARNING
               ("Context with ID " +:+ ModelContext.context_id context
                +:+ " already exists. Overwriting.") None) w
     else w).
Proof.
  unfold ContextRegistry.register. run_monad.
  by destruct (PyDict.contains _ _).
Qed.

(** The store in which [run_text_generation] looks for a model: one
    reading of the clock taken and the input context registered. *)
Lemma text_generation_prefix {Ext : Type} `{AIModelMethods Ext}
    (manager : ModelManager.t) (registry : ContextRegistry.t)
    (input_text uuid_hex : string) (w : World Ext) :
  exists w1,
    infos w1 = infos w /\ models w1 = models w
    /\ clock w1 = clock w /\ ticks w1 = S (ticks w)
    /\ Main.run_text_generation manager registry input_text uuid_hex w
       = (let input := Main.input_context input_text uuid_hex (clock w (ticks w)) in
          let registry1 :=
            ContextRegistry.mk
              (PyDict.set (ModelContext.context_id input) input
                 (ContextRegistry._contexts registry)) in
          mbind (ModelManager.list_models manager (Some ModelType.LANGUAGE))
            (fun listed =>
             match listed with
             | [] =>
                 mbind (Store.logger_error "No language models available")
                   (fun _ => mret (None, registry1))
             | first :: _ =>
                 mbind (Store.read (fun w => ModelInfo.model_id (infos w first)))
                   (fun model_id =>
                    match ModelManager.get_model manager model_id with
                    | None =>
                        mraise (mkExc AttributeError
                                  "'NoneType' object has no attribute 'status'")
                    | Some model =>
                        mbind (AIModel.status model) (fun st =>
                        mbind
                          (if bool_decide (st = ModelStatus.INITIALIZING) then
                             mbind (Store.logger_info
                                      ("Initializing model " +:+ model_id)) (fun _ =>
                             mbind (ModelManager.initialize_model manager model_id)
                               (fun ok =>
                                if negb ok then
                                  mbind (Store.logger_error
                                           ("Failed to initialize model " +:+ model_id))
                                    (fun _ => mret false)
                                else mret true))
                           else mret true) (fun initialized =>
                        if negb initialized then mret (None, registry1)
                        else
                          mbind (Store.logger_info ("Running model " +:+ model_id))
                            (fun _ =>
                          mbind (ModelManager.run_model manager model_id input)
                            (fun output_context =>
                             match output_context with
                             | None =>
                                 mbind (Store.logger_error
                                          ("Failed to run model " +:+ model_id))
                                   (fun _ => mret (None, registry1))
                             | Some output =>
                                 mbind (ContextRegistry.register registry1 output)
                                   (fun registry2 =>
                                    mret (Some (ModelContext.data output), registry2))
                             end))))
                    end)
             end)) w1.
Proof.
  unfold Main.run_text_generation.
  rewrite (mbind_ret Store.time_time _ (clock w (ticks w)) w (Store.tick w) eq_refl).
  cbv zeta.
  rewrite (mbind_ret _ _ _ _ _ (registry_register_eq registry _ (Store.tick w))).
  match goal with |- context [if ?c then ?a else ?b] =>
    exists (if c then a else b) end.
  do 4 (split; [by destruct (PyDict.contains _ _) |]).
  reflexivity.
Qed.

(** Reading the objects of a store that has the same objects. *)
Lemma list_models_same_objects {Ext : Type} (self : ModelManager.t)
    (model_type : option ModelType.t) (listed : list loc) (w w1 : World Ext) :
  infos w1 = infos w -> models w1 = models w ->
  ModelManager.list_models self model_type w = (Ret listed, w) ->
  ModelManager.list_models self model_type w1 = (Ret listed, w1).
Proof.
  intros Hi Hm. unfold ModelManager.list_models, Store.read, AIModel.info_of.
  simpl. rewrite Hi, Hm. by intros [= ->].
Qed.

Lemma status_of_same_objects {Ext : Type} (m : loc) (w w1 : World Ext) :
  infos w1 = infos w -> models w1 = models w ->
  AIModel.status_of w1 m = AIModel.status_of w m.
Proof.
  intros Hi Hm. unfold AIModel.status_of, AIModel.info_of. by rewrite Hi, Hm.
Qed.



(** X23: with no language model registered, [run_text_generation]
    returns None after logging the error; the input context it built is
    registered all the same, under text_input_ and the first 8
    characters of the uuid, and no object of the store is changed. *)
Theorem text_generation_without_model {Ext : Type} `{AIModelMethods Ext}
    (manager : ModelManager.t) (registry : ContextRegistry.t)
    (input_text uuid_hex : string) (w : World Ext) :
  ModelManager.list_models manager (Some ModelType.LANGUAGE) w = (Ret [], w) ->
  exists registry1 w',
    Main.run_text_generation manager registry input_text uuid_hex w
      = (Ret (None, registry1), w')
    /\ ContextRegistry.get registry1 ("text_input_" +:+ String.substring 0 8 uuid_hex)
       = Some (Main.input_context input_text uuid_hex (clock w (ticks w)))
    /\ infos w' = infos w
    /\ models w' = models w
    /\ last (log w')
       = Some (Logging.mkLogRecord Logging.ERROR "No language models available" None).
Proof.
  intros Hnone.
  destruct (text_generation_prefix manager registry input_text uuid_hex w)
    as (w1 & Hi & Hm & _ & _ & ->).
  cbv zeta.
  rewrite (mbind_ret _ _ _ _ _
             (list_models_same_objects manager _ _ w w1 Hi Hm Hnone)).
  eexists _, _. split; [reflexivity |].
  split; [apply PyDictFacts.get_set_eq |].
  split; [exact Hi |]. split; [exact Hm |].
  simpl. apply last_snoc.
Qed.

(** X24: when the first language model listed is neither INITIALIZING
    nor READY, [run_text_generation] returns None: the model is neither
    initialized nor run - no object of the store is changed, whatever
    the model is - and the input context stays registered. *)
Theorem text_generation_model_not_ready {Ext : Type} `{AIModelMethods Ext}
    (manager : ModelManager.t) (registry : ContextRegistry.t)
    (input_text uuid_hex : string) (w : World Ext)
    (first : loc) (rest : list loc) (model : loc) :
  ModelManager.list_models manager (Some ModelType.LANGUAGE) w
    = (Ret (first :: rest), w) ->
  ModelManager.get_model manager (ModelInfo.model_id (infos w first)) = Some model ->
  AIModel.status_of w model ≠ ModelStatus.INITIALIZING ->
  AIModel.status_of w model ≠ ModelStatus.READY ->
  exists registry1 w',
    Main.run_text_generation manager registry input_text uuid_hex w
      = (Ret (None, registry1), w')
    /\ ContextRegistry.get registry1 ("text_input_" +:+ String.substring 0 8 uuid_hex)
       = Some (Main.input_context input_text uuid_hex (clock w (ticks w)))
    /\ infos w' = infos w
    /\ models w' = models w.
Proof.
  intros Hlist Hreg Hinit Hready.
  destruct (text_generation_prefix manager registry input_text uuid_hex w)
    as (w1 & Hi & Hm & _ & _ & ->).
  cbv zeta.
  rewrite (mbind_ret _ _ _ _ _
             (list_models_same_objects manager _ _ w w1 Hi Hm Hlist)).
  rewrite (mbind_ret (Store.read _) _ (ModelInfo.model_id (infos w first)) w1 w1)
    by (unfold Store.read; by rewrite Hi).
  rewrite Hreg.
  rewrite (mbind_ret (AIModel.status model) _ (AIModel.status_of w model) w1 w1)
    by (unfold AIModel.status, Store.read;
        by rewrite (status_of_same_objects model w w1 Hi Hm)).
  rewrite bool_decide_eq_false_2 by done.
  rewrite (mbind_ret (mret true) _ true w1 w1 eq_refl).
  cbn [negb].
  set (w2 := Store.add_log
               (Logging.mkLogRecord Logging.INFO
                  ("Running model " +:+ ModelInfo.model_id (infos w first)) None) w1).
  rewrite (mbind_ret (Store.logger_info _) _ tt w1 w2 eq_refl).
  assert (Hst2 : AIModel.status_of w2 model ≠ ModelStatus.READY).
  { by rewrite (status_of_same_objects model w w2 Hi Hm). }
  rewrite (mbind_ret _ _ _ _ _
             (run_model_status_guard manager _ model _ w2 Hreg Hst2)).
  eexists _, _. split; [reflexivity |].
  split; [apply PyDictFacts.get_set_eq |].
  split; [exact Hi | exact Hm].
Qed.




(** ** The further properties on the concrete stores *)

Module OnDemoMore.
Import ModelStatus (INITIALIZING, READY, RUNNING, ERROR, STOPPED).

Lemma registry_wf : PyDict.wf (ContextRegistry._contexts DemoMore.registry).
Proof.
  apply list.NoDup_cons. split.
  - intros Hin. apply list_elem_of_singleton in Hin. discriminate.
  - apply list.NoDup_singleton.
Defined.

Lemma manager_wf : PyDict.wf (ModelManager._models Demo.two_models).
Proof.
  apply list.NoDup_cons. split.
  - intros Hin. apply list_elem_of_singleton in Hin. discriminate.
  - apply list.NoDup_singleton.
Defined.

Lemma registry_register_fresh_witness :
  exists reg',
    ContextRegistry.register DemoMore.registry Demo.numeric_context (Demo.world READY)
      = (Ret reg', Demo.world READY)
    /\ ContextRegistry.get reg' "ctx-4" = Some Demo.numeric_context
    /\ (forall k, k ≠ "ctx-4" ->
        ContextRegistry.get reg' k = ContextRegistry.get DemoMore.registry k)
    /\ ContextRegistry.list reg' None None
       = [Demo.text_context; Demo.image_context; Demo.numeric_context].
Proof.
  exact (registry_register_fresh DemoMore.registry Demo.numeric_context
           (Demo.world READY) eq_refl).
Defined.

Lemma registry_register_in_place_witness :
  exists reg' w' before after,
    ContextRegistry.register DemoMore.registry Demo.text_context_again
      (Demo.world READY) = (Ret reg', w')
    /\ ContextRegistry.list DemoMore.registry None None
       = before ++ Demo.text_context :: after
    /\ ContextRegistry.list reg' None None
       = before ++ Demo.text_context_again :: after.
Proof.
  exact (registry_register_in_place DemoMore.registry Demo.text_context
           Demo.text_context_again (Demo.world READY) eq_refl).
Defined.

Lemma registry_delete_witness :
  ContextRegistry.delete DemoMore.registry "ctx-1"
    = (true, ContextRegistry.mk [("ctx-2", Demo.image_context)])
  /\ ContextRegistry.get (ContextRegistry.delete DemoMore.registry "ctx-1").2 "ctx-1"
     = None
  /\ ContextRegistry.delete (ContextRegistry.delete DemoMore.registry "ctx-1").2 "ctx-1"
     = (false, ContextRegistry.mk [("ctx-2", Demo.image_context)]).
Proof.
  split; [reflexivity |].
  destruct (registry_delete DemoMore.registry "ctx-1" registry_wf)
    as (_ & Hgone & _ & _ & Hagain).
  split; [exact Hgone | exact Hagain].
Defined.

Lemma registry_list_filters_witness :
  Demo.image_context
    ∈ ContextRegistry.list DemoMore.registry (Some ContextType.IMAGE) None
  <-> (exists k, ContextRegistry.get DemoMore.registry k = Some Demo.image_context)
      /\ (forall ct, Some ContextType.IMAGE = Some ct ->
          ModelContext.context_type Demo.image_context = ct)
      /\ (forall mt, None = Some mt ->
          ModelContext.model_type Demo.image_context = Some mt).
Proof.
  exact (registry_list_filters DemoMore.registry (Some ContextType.IMAGE) None
           Demo.image_context registry_wf).
Defined.



Lemma unregister_model_removes_witness :
  ModelManager.unregister_model Demo.two_models "default_language_model"
    = (true, ModelManager.mk [("second_language_model", 1)])
  /\ ModelManager.get_model
       (ModelManager.unregister_model Demo.two_models "default_language_model").2
       "default_language_model" = None.
Proof.
  split; [reflexivity |].
  exact (proj1 (proj2 (unregister_model_removes Demo.two_models
                         "default_language_model" manager_wf))).
Defined.

Lemma unregistered_model_is_unknown_witness :
  @ModelManager.run_model _ Demo.methods
    (ModelManager.unregister_model Demo.two_models "default_language_model").2
    "default_language_model" Demo.text_context (Demo.world READY)
  = (Ret None,
     Store.add_log
       (Logging.mkLogRecord Logging.ERROR
          "Model with ID default_language_model not found." None) (Demo.world READY)).
Proof.
  exact (proj1 (@unregistered_model_is_unknown _ Demo.methods Demo.two_models
                  "default_language_model" Demo.text_context (Demo.world READY)
                  manager_wf)).
Defined.

Lemma register_model_listed_last_witness :
  exists self' listed,
    ModelManager.register_model Demo.manager 1 (Demo.world READY)
      = (Ret (true, self'), Demo.world READY)
    /\ ModelManager.list_models Demo.manager None (Demo.world READY)
       = (Ret listed, Demo.world READY)
    /\ ModelManager.list_models self' None (Demo.world READY)
       = (Ret (listed ++ [1]), Demo.world READY).
Proof.
  exact (register_model_listed_last Demo.manager 1 (Demo.world READY) eq_refl).
Defined.

Lemma register_after_unregister_witness :
  exists self'',
    ModelManager.register_model
      (ModelManager.unregister_model Demo.two_models "second_language_model").2 1
      (Demo.world READY) = (Ret (true, self''), Demo.world READY)
    /\ ModelManager.get_model self'' "second_language_model" = Some 1.
Proof.
  exact (register_after_unregister Demo.two_models 1 (Demo.world READY) manager_wf).
Defined.

Lemma text_supported_more :
  ModelContext.context_type Demo.text_context
    ∈ ModelInfo.supported_context_types (AIModel.info_of (Demo.world READY) 0).
Proof. apply list_elem_of_here. Defined.

Lemma text_supported_loaded :
  ModelContext.context_type Demo.text_context
    ∈ ModelInfo.supported_context_types (AIModel.info_of DemoMore.loaded_world 0).
Proof. apply list_elem_of_here. Defined.

Lemma image_listed :
  ModelContext.context_type Demo.image_context
    ∈ ModelInfo.supported_context_types (AIModel.info_of DemoMore.misconfigured_world 0).
Proof. apply list_elem_of_further, list_elem_of_here. Defined.

Lemma image_is_not_text : ModelContext.context_type Demo.image_context ≠ ContextType.TEXT.
Proof. discriminate. Defined.

Lemma ready_not_running : AIModel.status_of (Demo.world READY) 0 ≠ RUNNING.
Proof. discriminate. Defined.

(** The generation of the loaded model is interrupted: the interrupt
    leaves [run_model], the model stays RUNNING and turns the next call
    down. *)
Lemma run_model_lets_base_exceptions_through_witness :
  @ModelManager.run_model _ DemoMore.interrupted_methods Demo.manager
    "default_language_model" Demo.text_context DemoMore.loaded_world
  = (Raise (mkExc KeyboardInterrupt ""), DemoMore.interrupted_store)
  /\ AIModel.status_of DemoMore.interrupted_store 0 = RUNNING
  /\ @ModelManager.run_model _ DemoMore.interrupted_methods Demo.manager
       "default_language_model" Demo.text_context_again DemoMore.interrupted_store
     = (Ret None,
        Store.add_log
          (Logging.mkLogRecord Logging.ERROR
             "Model default_language_model is not ready. Current status: running"
             None) DemoMore.interrupted_store).
Proof.
  destruct (@run_model_lets_base_exceptions_through _ DemoMore.interrupted_methods
              Demo.manager "default_language_model" 0 Demo.text_context
              Demo.text_context_again DemoMore.loaded_world
              DemoMore.interrupted_store (mkExc KeyboardInterrupt "")
              eq_refl eq_refl text_supported_loaded eq_refl eq_refl)
    as [Hraise Hnext].
  split; [exact Hraise |]. split; [reflexivity | exact (Hnext eq_refl)].
Defined.

Lemma run_model_error_is_sticky_witness :
  AIModel.status_of (Demo.run_default Demo.broken_context READY).2 0 = ERROR
  /\ (@ModelManager.run_model _ Demo.methods Demo.manager "default_language_model"
        Demo.text_context (Demo.run_default Demo.broken_context READY).2).1
     = Ret None.
Proof.
  destruct (@run_model_error_is_sticky _ Demo.methods Demo.manager
              "default_language_model" 0 Demo.broken_context Demo.text_context
              (Demo.world READY) _ _ eq_refl eq_refl text_supported_more
              eq_refl eq_refl) as [Herr Hnext].
  split; [exact Herr |].
  unfold Demo.run_default. unfold exec in Hnext. by rewrite Hnext.
Defined.

Lemma run_model_returns_not_running_witness :
  AIModel.status_of (Demo.run_default Demo.text_context READY).2 0 ≠ RUNNING.
Proof.
  exact (@run_model_returns_not_running _ Demo.methods Demo.manager
           "default_language_model" 0 Demo.text_context (Demo.world READY)
           (Demo.run_default Demo.text_context READY).2 (Some Demo.response)
           eq_refl ready_not_running eq_refl).
Defined.

Lemma initialize_then_run_witness :
  (@ModelManager.initialize_model _ Demo.methods Demo.manager "default_language_model"
     (Demo.world INITIALIZING)).1 = Ret true
  /\ (@ModelManager.run_model _ Demo.methods Demo.manager "default_language_model"
        Demo.text_context
        (@ModelManager.initialize_model _ Demo.methods Demo.manager
           "default_language_model" (Demo.world INITIALIZING)).2).1
     = Ret (Some Demo.response).
Proof.
  destruct (@initialize_then_run _ Demo.methods Demo.manager "default_language_model"
              0 Demo.text_context (Demo.world INITIALIZING) _ eq_refl eq_refl
              (list_elem_of_here _ _)) as (Hinit & _ & Hrun).
  split; [by rewrite Hinit |].
  unfold exec in Hrun. by rewrite Hrun.
Defined.


Lemma language_model_refuses_other_types_witness :
  exists w',
    @ModelManager.run_model _ Demo.methods Demo.manager "default_language_model"
      Demo.image_context DemoMore.misconfigured_world = (Ret None, w')
    /\ AIModel.status_of w' 0 = ERROR
    /\ log w'
       = [Logging.mkLogRecord Logging.ERROR
            "Error running model default_language_model: Unsupported context type: image"
            (Some (mkExc ValueError "Unsupported context type: image"))].
Proof.
  destruct (@language_model_refuses_other_types Demo.externals Demo.manager
              "default_language_model" 0 Demo.image_context
              DemoMore.misconfigured_world eq_refl eq_refl image_listed
              image_is_not_text) as (w' & Hrun & Hst & Hlog & _).
  exists w'. split; [exact Hrun |]. split; [exact Hst | exact Hlog].
Defined.


(** Text is generated with no model registered, with the model in
    ERROR, and with the model waiting to be initialized. *)
Lemma text_generation_without_model_witness :
  exists registry1 w',
    @Main.run_text_generation _ Demo.methods ModelManager.init DemoMore.registry
      "Hello, world" DemoMore.uuid_hex (Demo.world READY) = (Ret (None, registry1), w')
    /\ ContextRegistry.get registry1 "text_input_9f1c2ab4"
       = Some (Main.input_context "Hello, world" DemoMore.uuid_hex (Demo.clock 0)).
Proof.
  destruct (@text_generation_without_model _ Demo.methods ModelManager.init
              DemoMore.registry "Hello, world" DemoMore.uuid_hex (Demo.world READY)
              eq_refl) as (registry1 & w' & Hrun & Hget & _).
  exists registry1, w'. split; [exact Hrun | exact Hget].
Defined.

Lemma text_generation_model_not_ready_witness :
  exists registry1 w',
    @Main.run_text_generation _ Demo.methods Demo.manager DemoMore.registry
      "Hello, world" DemoMore.uuid_hex (Demo.world ERROR) = (Ret (None, registry1), w')
    /\ infos w' = infos (Demo.world ERROR)
    /\ models w' = models (Demo.world ERROR).
Proof.
  destruct (@text_generation_model_not_ready _ Demo.methods Demo.manager
              DemoMore.registry "Hello, world" DemoMore.uuid_hex (Demo.world ERROR)
              0 [] 0 eq_refl eq_refl ltac:(discriminate) ltac:(discriminate))
    as (registry1 & w' & Hrun & _ & Hi & Hm).
  exists registry1, w'. split; [exact Hrun |]. split; [exact Hi | exact Hm].
Defined.


End OnDemoMore.
